(** * Verification of the rolling-mean signal pipeline (run.py)

    A shallow embedding of [run.py]: configuration validation
    ([load_config]), schema-checked data loading ([load_data]), the
    rolling-window signal ([generate_signals]) and the job runner
    ([main]) with its success and failure reports.

    Modelling conventions.
    - Python integers are [Z]; a Python [bool] is kept apart from a
      plain [int] ([pyint]) because [isinstance(True, int)] holds.
    - float64 values of the [close] column are exact rationals ([Q]);
      NaN is [None] in an [option Q].  Rounding errors of the hardware
      arithmetic and infinities are outside the model.
    - The file system, the YAML parser, the CSV parser and the clock are
      the fields of a [World]: what [os.path.exists], [yaml.safe_load],
      [pd.read_csv], [open(..., 'w')] and [time.perf_counter] answer.
    - Exceptions are values of [exn]; functions that may raise return a
      [result]; [main] threads the log, the output file and the standard
      output through a state record. *)

From Stdlib Require Import ZArith QArith Qround List String Ascii Bool Lia Arith.
From Stdlib Require Import Sorting.Sorted Lqa.
Import ListNotations.

Local Open Scope string_scope.
Local Open Scope Z_scope.

Set Warnings "-register-all".

(** ** Exceptions and results *)

Inductive exn_class :=
| FileNotFoundError
| ValueError
| KeyError
| DataError      (* pandas.errors.DataError *)
| OSError.

Record exn := mkExn { exn_type : exn_class; exn_msg : string }.

(** [str(exc)] *)
Definition str_exn (e : exn) : string := exn_msg e.

Inductive result (A : Type) :=
| Ok (a : A)
| Raise (e : exn).
Arguments Ok {A} a.
Arguments Raise {A} e.

Definition result_bind {A B} (r : result A) (k : A -> result B) : result B :=
  match r with
  | Ok a => k a
  | Raise e => Raise e
  end.

(** Sequencing, shared by the pure functions that may raise and by the
    job, which also carries a state. *)
Class Monad (m : Type -> Type) := {
  ret : forall {A}, A -> m A;
  bind : forall {A B}, m A -> (A -> m B) -> m B
}.

#[export] Instance Monad_result : Monad result :=
  {| ret := @Ok; bind := @result_bind |}.

Notation "x <- r ;; k" := (bind r (fun x => k))
  (at level 61, r at next level, right associativity).
Notation "r ;; k" := (bind r (fun _ => k))
  (at level 61, right associativity).

(** ** Python values read from the YAML document *)

Inductive yaml :=
| YNull
| YBool (b : bool)
| YInt (z : Z)
| YFloat (q : Q)
| YStr (s : string)
| YSeq (items : list yaml)
| YMap (items : list (yaml * yaml)).

(** A Python [int] object: a plain integer or one of the two booleans
    ([bool] is a subclass of [int]). *)
Inductive pyint :=
| PInt (z : Z)
| PBool (b : bool).

Definition int_val (n : pyint) : Z :=
  match n with
  | PInt z => z
  | PBool true => 1
  | PBool false => 0
  end.

(** [isinstance(v, int)]: the integer object behind [v], if any. *)
Definition as_int (v : yaml) : option pyint :=
  match v with
  | YInt z => Some (PInt z)
  | YBool b => Some (PBool b)
  | _ => None
  end.


(** [isinstance(v, str)] *)
Definition as_str (v : yaml) : option string :=
  match v with
  | YStr s => Some s
  | _ => None
  end.

(** A key of the parsed mapping equals the string [k]. *)
Definition key_is (k : string) (key : yaml) : bool :=
  match key with
  | YStr s => String.eqb k s
  | _ => false
  end.

(** [k in cfg.keys()] *)
Definition has_key (k : string) (d : list (yaml * yaml)) : bool :=
  existsb (fun kv => key_is k (fst kv)) d.

(** [cfg[k]]; a dict holds each key once. *)
Definition dict_get (k : string) (d : list (yaml * yaml)) : option yaml :=
  match find (fun kv => key_is k (fst kv)) d with
  | Some kv => Some (snd kv)
  | None => None
  end.

Definition getitem (k : string) (d : list (yaml * yaml)) : result yaml :=
  match dict_get k d with
  | Some v => Ok v
  | None => Raise (mkExn KeyError ("'" ++ k ++ "'"))
  end.

(** ** [sorted] and [repr] on lists of strings *)

Fixpoint insert_sorted (s : string) (l : list string) : list string :=
  match l with
  | [] => [s]
  | x :: r => if String.leb s x then s :: l else x :: insert_sorted s r
  end.

Definition sorted (l : list string) : list string :=
  fold_right insert_sorted [] l.

Fixpoint join (sep : string) (l : list string) : string :=
  match l with
  | [] => ""
  | [x] => x
  | x :: r => x ++ sep ++ join sep r
  end.

(** [repr] of a list of strings that need no escaping. *)
Definition repr_list (l : list string) : string :=
  "[" ++ join ", " (map (fun s => "'" ++ s ++ "'") l) ++ "]".

(** ** The world the job runs in *)

Inductive yaml_outcome :=
| YamlError (exc : string)        (* yaml.safe_load raises YAMLError *)
| YamlDoc (doc : yaml).

Inductive cell :=
| Num (q : Q)
| NaN
| Str (s : string).

(** A parsed table: the header and the data rows.  A row shorter than
    the header reads as NaN in the columns it lacks. *)
Record DataFrame := mkDF {
  columns : list string;
  rows : list (list cell)
}.

Inductive csv_outcome :=
| CsvEmptyDataError                (* pd.errors.EmptyDataError *)
| CsvParserError (exc : string)    (* pd.errors.ParserError *)
| CsvOtherError (exc : string)     (* any other exception of read_csv *)
| CsvFrame (df : DataFrame).

Record Args := mkArgs {
  arg_input : string;
  arg_config : string;
  arg_output : string;
  arg_log_file : string
}.

Record World := mkWorld {
  args : Args;
  (* a path that exists and holds a YAML text: the parser's answer *)
  yaml_at : string -> option yaml_outcome;
  (* a path that exists and holds a CSV text: the parser's answer *)
  csv_at : string -> option csv_outcome;
  (* the exception, if any, of writing the metrics to the output path *)
  write_metrics_fails : option string;
  (* the exception, if any, of writing the error payload to it *)
  write_error_fails : option string;
  (* the two readings of time.perf_counter, in seconds *)
  clock_start : Q;
  clock_end : Q
}.

(** ** load_config *)

Record Config := mkConfig {
  cfg_seed : pyint;
  cfg_window : pyint;
  cfg_version : string
}.

Definition required_keys : list string := ["seed"; "window"; "version"].

(** [required_keys - set(cfg.keys())] *)
Definition missing_keys (d : list (yaml * yaml)) : list string :=
  filter (fun k => negb (has_key k d)) required_keys.

Definition cfg_err (detail : string) : exn :=
  mkExn ValueError ("Invalid configuration file structure: " ++ detail).

Definition str_nonempty (s : string) : bool :=
  match s with
  | EmptyString => false
  | _ => true
  end.

Definition load_config (w : World) (config_path : string) : result Config :=
  match yaml_at w config_path with
  | None =>
      Raise (mkExn FileNotFoundError ("Config file not found: " ++ config_path))
  | Some (YamlError exc) =>
      Raise (mkExn ValueError ("Invalid YAML config format: " ++ exc))
  | Some (YamlDoc cfg) =>
      match cfg with
      | YMap d =>
          let missing := missing_keys d in
          match missing with
          | _ :: _ =>
              Raise (cfg_err ("missing keys " ++ repr_list (sorted missing)))
          | [] =>
              seed <- getitem "seed" d ;;
              window <- getitem "window" d ;;
              version <- getitem "version" d ;;
              match as_int seed with
              | None => Raise (cfg_err "'seed' must be an integer.")
              | Some seed_i =>
                  match as_int window with
                  | None =>
                      Raise (cfg_err "'window' must be a positive integer.")
                  | Some window_i =>
                      if int_val window_i <=? 0
                      then Raise (cfg_err "'window' must be a positive integer.")
                      else
                        match as_str version with
                        | None =>
                            Raise (cfg_err "'version' must be a non-empty string.")
                        | Some version_s =>
                            if negb (str_nonempty version_s)
                            then Raise (cfg_err "'version' must be a non-empty string.")
                            else Ok (mkConfig seed_i window_i version_s)
                        end
                  end
              end
          end
      | _ => Raise (cfg_err "expected a YAML mapping.")
      end
  end.

(** ** load_data *)

(** [len(df)] *)
Definition df_len (df : DataFrame) : nat := List.length (rows df).

(** [df.empty]: an axis of List.length 0. *)
Definition df_empty (df : DataFrame) : bool :=
  match rows df, columns df with
  | [], _ => true
  | _, [] => true
  | _, _ => false
  end.

(** [name in df.columns] *)
Definition has_column (name : string) (df : DataFrame) : bool :=
  existsb (String.eqb name) (columns df).

Definition load_data (w : World) (input_path : string) : result DataFrame :=
  match csv_at w input_path with
  | None =>
      Raise (mkExn FileNotFoundError ("Input file not found: " ++ input_path))
  | Some CsvEmptyDataError =>
      Raise (mkExn ValueError "Empty input file.")
  | Some (CsvParserError exc) =>
      Raise (mkExn ValueError ("Invalid CSV file format: " ++ exc))
  | Some (CsvOtherError exc) =>
      Raise (mkExn ValueError ("Invalid CSV file format: " ++ exc))
  | Some (CsvFrame df) =>
      if df_empty df
      then Raise (mkExn ValueError "Empty input file.")
      else if negb (has_column "close" df)
      then Raise (mkExn ValueError "Missing required columns in dataset: ['close']")
      else Ok df
  end.

(** ** generate_signals *)

(** Position of a column in the header. *)
Fixpoint column_index (name : string) (cols : list string) : option nat :=
  match cols with
  | [] => None
  | c :: r =>
      if String.eqb name c then Some 0%nat
      else match column_index name r with
           | Some j => Some (S j)
           | None => None
           end
  end.

(** [df[name]]: the cells of one column, one per row. *)
Definition df_getitem (name : string) (df : DataFrame) : result (list cell) :=
  match column_index name (columns df) with
  | Some j => Ok (map (fun r => nth j r NaN) (rows df))
  | None => Raise (mkExn KeyError ("'" ++ name ++ "'"))
  end.

(** The float64 values of a column, when its dtype is numeric: a column
    holding a text cell has dtype object. *)
Fixpoint to_numeric (col : list cell) : option (list (option Q)) :=
  match col with
  | [] => Some []
  | Str _ :: _ => None
  | Num q :: r =>
      match to_numeric r with
      | Some l => Some (Some q :: l)
      | None => None
      end
  | NaN :: r =>
      match to_numeric r with
      | Some l => Some (None :: l)
      | None => None
      end
  end.

(** [Series.rolling(window=window, min_periods=window)]: the arguments
    must be integers that are not booleans, and not negative. *)
Definition rolling_validate (window : pyint) : result nat :=
  match window with
  | PBool _ => Raise (mkExn ValueError "min_periods must be an integer")
  | PInt z =>
      if z <? 0 then Raise (mkExn ValueError "min_periods must be >= 0")
      else Ok (Z.to_nat z)
  end.

(** The window that ends at position [i]: positions
    [max(0, i + 1 - w) .. i]. *)
Definition window_at {A} (xs : list A) (w i : nat) : list A :=
  let stop := S i in
  let start := (stop - w)%nat in
  firstn (stop - start) (skipn start xs).

(** The observations of a window: its values that are not NaN. *)
Fixpoint observed (win : list (option Q)) : list Q :=
  match win with
  | [] => []
  | Some q :: r => q :: observed r
  | None :: r => observed r
  end.

Definition Qsum (l : list Q) : Q := fold_right Qplus 0%Q l.

(** Mean of a window, NaN with fewer than [minp] observations. *)
Definition calc_mean (minp : nat) (win : list (option Q)) : option Q :=
  let obs := observed win in
  let nobs := List.length obs in
  if ((minp <=? nobs)%nat && (0 <? nobs)%nat)%bool
  then Some (Qsum obs / inject_Z (Z.of_nat nobs))%Q
  else None.

(** [Series.rolling(window=w, min_periods=minp).mean()] *)
Definition rolling_mean (xs : list (option Q)) (w minp : nat) : list (option Q) :=
  map (fun i => calc_mean minp (window_at xs w i)) (seq 0 (List.length xs)).

(** [a > b] on float64: false as soon as one side is NaN. *)
Definition float_gt (a b : option Q) : bool :=
  match a, b with
  | Some x, Some y => negb (Qle_bool x y)
  | _, _ => false
  end.

(** Elementwise [left > right] of two series on the same index. *)
Fixpoint series_gt (left right : list (option Q)) : list bool :=
  match left, right with
  | a :: l, b :: r => float_gt a b :: series_gt l r
  | _, _ => []
  end.

(** [.astype(int)] on a boolean series. *)
Definition astype_int (s : list bool) : list Z :=
  map (fun b : bool => if b then 1 else 0) s.

Definition generate_signals (df : DataFrame) (window : pyint) : result (list Z) :=
  col <- df_getitem "close" df ;;
  w <- rolling_validate window ;;
  match to_numeric col with
  | None => Raise (mkExn DataError "No numeric types to aggregate")
  | Some close =>
      let rolling := rolling_mean close w w in
      let signal := astype_int (series_gt close rolling) in
      Ok signal
  end.

(** ** Numeric helpers of the report *)

Definition Zsum (l : list Z) : Z := fold_right Z.add 0 l.

(** [Series.mean()] of an integer series; NaN on an empty one. *)
Definition series_mean (s : list Z) : option Q :=
  match s with
  | [] => None
  | _ => Some (inject_Z (Zsum s) / inject_Z (Z.of_nat (List.length s)))%Q
  end.

(** Nearest integer, a tie going to the even neighbour. *)
Definition round_half_even (x : Q) : Z :=
  let f := Qfloor x in
  match Qcompare (x - inject_Z f) (1 # 2) with
  | Lt => f
  | Gt => f + 1
  | Eq => if Z.even f then f else f + 1
  end.

(** [round(x, ndigits)] on a float; NaN stays NaN. *)
Definition py_round (x : option Q) (ndigits : nat) : option Q :=
  match x with
  | None => None
  | Some q =>
      let scale := inject_Z (10 ^ Z.of_nat ndigits) in
      Some (inject_Z (round_half_even (q * scale)) / scale)%Q
  end.

(** [int(x)] on a float: truncation towards zero. *)
Definition py_int (x : Q) : Z := Z.quot (Qnum x) (Zpos (Qden x)).

(** [np.random.seed(seed)]: the index of the seed must fit 32 bits. *)
Definition np_random_seed (seed : pyint) : result unit :=
  let idx := int_val seed in
  if ((idx >? 2 ^ 32 - 1) || (idx <? 0))%bool
  then Raise (mkExn ValueError "Seed must be between 0 and 2**32 - 1")
  else Ok tt.

(** ** Reports, log and job state *)

Record Metrics := mkMetrics {
  m_version : string;
  m_rows_processed : Z;
  m_metric : string;
  m_value : option Q;
  m_latency_ms : Z;
  m_seed : pyint;
  m_status : string
}.

Record ErrorPayload := mkErrorPayload {
  e_version : string;
  e_status : string;
  e_error_message : string
}.

Inductive payload :=
| PMetrics (m : Metrics)
| PError (e : ErrorPayload).

(** The lines of the log, before formatting. *)
Inductive log_msg :=
| JobStarted
| ConfigLoaded (seed window : pyint) (version : string)
| ConfigurationVerified
| DataLoaded (rows_processed : Z)
| RollingMeanCalculated (window : pyint)
| SignalsGenerated
| MetricsSummary (value : option Q) (rows_processed : Z)
| JobCompleted (latency_ms : Z)
| ErrorEncountered (msg : string)
| FailedToWriteErrorOutput (msg : string).

Inductive log_level := INFO | ERROR.

Record State := mkState {
  log : list (log_level * log_msg);
  out_file : option payload;      (* what the output path holds *)
  stdout : list payload;
  version_for_error : string
}.

(** A step of the job: it may raise, and the state it leaves survives
    the exception. *)
Definition Job (A : Type) : Type := State -> result A * State.

Definition job_ret {A} (a : A) : Job A := fun s => (Ok a, s).

Definition job_bind {A B} (m : Job A) (k : A -> Job B) : Job B :=
  fun s =>
    match m s with
    | (Ok a, s') => k a s'
    | (Raise e, s') => (Raise e, s')
    end.

#[export] Instance Monad_Job : Monad Job :=
  {| ret := @job_ret; bind := @job_bind |}.

Definition lift {A} (r : result A) : Job A := fun s => (r, s).

Definition logger (lvl : log_level) (m : log_msg) : Job unit :=
  fun s => (Ok tt, mkState (log s ++ [(lvl, m)]) (out_file s) (stdout s)
                           (version_for_error s)).

Definition logger_info := logger INFO.
Definition logger_error := logger ERROR.

Definition print (p : payload) : Job unit :=
  fun s => (Ok tt, mkState (log s) (out_file s) (stdout s ++ [p])
                           (version_for_error s)).

Definition set_version_for_error (v : string) : Job unit :=
  fun s => (Ok tt, mkState (log s) (out_file s) (stdout s) v).

Definition get_version_for_error : Job string :=
  fun s => (Ok (version_for_error s), s).

(** [write_json(path, payload)]; [fails] is what the world answers to
    this write. *)
Definition write_json (fails : option string) (p : payload) : Job unit :=
  fun s =>
    match fails with
    | Some msg => (Raise (mkExn OSError msg), s)
    | None => (Ok tt, mkState (log s) (Some p) (stdout s) (version_for_error s))
    end.

(** ** main *)

(** The body of the [try]. *)
Definition main_try (w : World) : Job Z :=
  logger_info JobStarted ;;
  config <- lift (load_config w (arg_config (args w))) ;;
  let seed := cfg_seed config in
  let window := cfg_window config in
  let version := cfg_version config in
  set_version_for_error version ;;
  lift (np_random_seed seed) ;;
  logger_info (ConfigLoaded seed window version) ;;
  logger_info ConfigurationVerified ;;
  df <- lift (load_data w (arg_input (args w))) ;;
  let rows_processed := Z.of_nat (df_len df) in
  logger_info (DataLoaded rows_processed) ;;
  signal <- lift (generate_signals df window) ;;
  logger_info (RollingMeanCalculated window) ;;
  logger_info SignalsGenerated ;;
  let signal_rate := series_mean signal in
  let latency_ms := py_int ((clock_end w - clock_start w) * inject_Z 1000)%Q in
  let metrics :=
    mkMetrics version rows_processed "signal_rate" (py_round signal_rate 4)
              latency_ms seed "success" in
  write_json (write_metrics_fails w) (PMetrics metrics) ;;
  logger_info (MetricsSummary (m_value metrics) rows_processed) ;;
  logger_info (JobCompleted latency_ms) ;;
  print (PMetrics metrics) ;;
  ret 0.

(** The inner [try] of the handler: a failed write of the error payload
    is logged and goes no further. *)
Definition try_write_error (fails : option string) (p : payload) : Job unit :=
  fun s =>
    match write_json fails p s with
    | (Ok _, s') => (Ok tt, s')
    | (Raise write_exc, s') =>
        logger_error (FailedToWriteErrorOutput (str_exn write_exc)) s'
    end.

(** The [except Exception] handler. *)
Definition main_except (w : World) (exc : exn) : Job Z :=
  logger_error (ErrorEncountered (str_exn exc)) ;;
  v <- get_version_for_error ;;
  let error_payload := mkErrorPayload v "error" (str_exn exc) in
  try_write_error (write_error_fails w) (PError error_payload) ;;
  print (PError error_payload) ;;
  ret 1.

Definition initial_state : State := mkState [] None [] "v1".

(** The exit status of the process and the state it leaves. *)
Definition main (w : World) : Z * State :=
  match main_try w initial_state with
  | (Ok status, s) => (status, s)
  | (Raise exc, s) =>
      match main_except w exc s with
      | (Ok status, s') => (status, s')
      | (Raise _, s') => (1, s')
      end
  end.

(** ** The validation rules of the specification

    The specification orders the checks of the configuration and of the
    dataset; each rule below says, on its own, whether a file state
    violates it and with which error. *)



(** The mapping of a file that exists, parses and holds a mapping. *)
Definition doc_mapping (st : option yaml_outcome) : option (list (yaml * yaml)) :=
  match st with
  | Some (YamlDoc (YMap d)) => Some d
  | _ => None
  end.

(** The value of a field of the mapping, when it is there. *)
Definition field (k : string) (st : option yaml_outcome) : option yaml :=
  match doc_mapping st with
  | Some d => dict_get k d
  | None => None
  end.


(** The error of the first rule, in the given order, that is violated. *)
Fixpoint first_violation {R S} (check : R -> S -> option exn)
    (order : list R) (st : S) : option exn :=
  match order with
  | [] => None
  | r :: rest =>
      match check r st with
      | Some e => Some e
      | None => first_violation check rest st
      end
  end.


Inductive data_rule :=
| DataExists
| DataParse
| DataEmpty
| DataSchema.

Definition data_rule_order : list data_rule :=
  [DataExists; DataParse; DataEmpty; DataSchema].

Definition parse_failure (exc : string) : exn :=
  mkExn ValueError ("Invalid CSV file format: " ++ exc).

Definition empty_input : exn := mkExn ValueError "Empty input file.".

Definition data_rule_check (r : data_rule) (path : string)
    (st : option csv_outcome) : option exn :=
  match r with
  | DataExists =>
      match st with
      | None => Some (mkExn FileNotFoundError ("Input file not found: " ++ path))
      | Some _ => None
      end
  | DataParse =>
      match st with
      | Some (CsvParserError exc) => Some (parse_failure exc)
      | Some (CsvOtherError exc) => Some (parse_failure exc)
      | _ => None
      end
  | DataEmpty =>
      match st with
      | Some CsvEmptyDataError => Some empty_input
      | Some (CsvFrame df) => if df_empty df then Some empty_input else None
      | _ => None
      end
  | DataSchema =>
      match st with
      | Some (CsvFrame df) =>
          if has_column "close" df then None
          else Some (mkExn ValueError "Missing required columns in dataset: ['close']")
      | _ => None
      end
  end.

(** ** The signal rule and the rate of the specification *)


(** Equality of two floats: NaN only with NaN, numbers by value. *)
Definition float_eq (a b : option Q) : Prop :=
  match a, b with
  | Some x, Some y => (x == y)%Q
  | None, None => True
  | _, _ => False
  end.



(** The rate as the code computes it: the rows whose signal is 1 over
    all the rows. *)
Definition rate_over_rows (signal : list Z) : Q :=
  let ones := Z.of_nat (count_occ Z.eq_dec signal 1) in
  let total := Z.of_nat (List.length signal) in
  (inject_Z ones / inject_Z total)%Q.

(** The run has reached the success report: the metrics are in the
    output file and on the standard output. *)
Definition reported_success (s : State) : Prop :=
  exists m, out_file s = Some (PMetrics m) /\ stdout s = [PMetrics m] /\
            m_status m = "success".

(** The run has reported a failure on the standard output. *)
Definition reported_failure (s : State) : Prop :=
  exists e, stdout s = [PError e] /\ e_status e = "error".

(** ** Derived notions used by the statements *)

(** Strict order of the keys in an error message. *)
Definition key_lt (a b : string) : Prop := String.ltb a b = true.

(** The signal computed from a numeric close column. *)
Definition signal_of (close : list (option Q)) (w : nat) : list Z :=
  astype_int (series_gt close (rolling_mean close w w)).

(** The metrics record of a run whose stages returned [cfg], [df] and
    [signal]. *)
Definition metrics_of (w : World) (cfg : Config) (df : DataFrame)
    (signal : list Z) : Metrics :=
  mkMetrics (cfg_version cfg) (Z.of_nat (df_len df)) "signal_rate"
    (py_round (series_mean signal) 4)
    (py_int ((clock_end w - clock_start w) * inject_Z 1000)%Q)
    (cfg_seed cfg) "success".

(** Every stage of the [try] body goes through. *)
Definition stages_ok (w : World) (cfg : Config) (df : DataFrame)
    (signal : list Z) : Prop :=
  load_config w (arg_config (args w)) = Ok cfg /\
  np_random_seed (cfg_seed cfg) = Ok tt /\
  load_data w (arg_input (args w)) = Ok df /\
  generate_signals df (cfg_window cfg) = Ok signal /\
  write_metrics_fails w = None.

(** ** The scenario of the specification *)

Definition scenario_config : yaml :=
  YMap [(YStr "seed", YInt 42); (YStr "window", YInt 3);
        (YStr "version", YStr "v1")].

Definition scenario_close : list cell :=
  [Num 1; Num 2; Num 3; Num 10; Num 1; Num 1].

Definition scenario_frame : DataFrame :=
  mkDF ["close"] (map (fun c => [c]) scenario_close).

Definition scenario_world : World :=
  mkWorld (mkArgs "data.csv" "config.yaml" "metrics.json" "run.log")
    (fun p => if String.eqb p "config.yaml" then Some (YamlDoc scenario_config)
              else None)
    (fun p => if String.eqb p "data.csv" then Some (CsvFrame scenario_frame)
              else None)
    None None 0%Q (1 # 8)%Q.

(** The report the job prints on the scenario. *)
Definition scenario_metrics : Metrics :=
  mkMetrics "v1" 6 "signal_rate" (Some (3333 # 10000)%Q) 125 (PInt 42)
    "success".

(** A world that differs from the scenario in its configuration only. *)
Definition scenario_with_config (doc : yaml) : World :=
  mkWorld (args scenario_world) (fun _ => Some (YamlDoc doc))
    (csv_at scenario_world) None None 0%Q 0%Q.

(** A configuration whose integers are booleans. *)
Definition boolean_config : yaml :=
  YMap [(YStr "seed", YBool true); (YStr "window", YBool true);
        (YStr "version", YStr "v1")].


(** ** Further scenarios *)

(** The scenario without its input file. *)
Definition scenario_without_input : World :=
  mkWorld (args scenario_world) (yaml_at scenario_world) (fun _ => None)
    None None 0%Q 0%Q.

(** The scenario without its configuration file. *)
Definition scenario_without_config : World :=
  mkWorld (args scenario_world) (fun _ => None) (csv_at scenario_world)
    None None 0%Q 0%Q.

(** The scenario's configuration with a negative seed. *)
Definition negative_seed_config : yaml :=
  YMap [(YStr "seed", YInt (-1)); (YStr "window", YInt 3);
        (YStr "version", YStr "v2")].

(** The lines a run logs up to the end of the configuration stage. *)
Definition config_log (cfg : Config) : list (log_level * log_msg) :=
  [(INFO, JobStarted);
   (INFO, ConfigLoaded (cfg_seed cfg) (cfg_window cfg) (cfg_version cfg));
   (INFO, ConfigurationVerified)].

(** The lines the [except] handler adds to the log. *)
Definition handler_log (w : World) (msg : string) : list (log_level * log_msg) :=
  (ERROR, ErrorEncountered msg) ::
  match write_error_fails w with
  | Some write_msg => [(ERROR, FailedToWriteErrorOutput write_msg)]
  | None => []
  end.

(** The scenario on an output path that cannot be written. *)
Definition scenario_read_only : World :=
  mkWorld (args scenario_world) (yaml_at scenario_world)
    (csv_at scenario_world) (Some "Permission denied")
    (Some "Permission denied") 0%Q 0%Q.

(** * Configuration validation *)


Lemma dict_get_has_key (k : string) (d : list (yaml * yaml)) (v : yaml) :
  dict_get k d = Some v -> has_key k d = true.
Proof.
  unfold has_key, dict_get.
  induction d as [|kv d IH]; simpl; [discriminate|].
  destruct (key_is k (fst kv)); simpl; auto.
Qed.

Lemma missing_keys_nil (d : list (yaml * yaml)) :
  missing_keys d = [] <->
  has_key "seed" d = true /\ has_key "window" d = true /\
  has_key "version" d = true.
Proof.
  unfold missing_keys, required_keys; simpl.
  destruct (has_key "seed" d), (has_key "window" d), (has_key "version" d);
    simpl; split; intros H; try discriminate; try tauto;
    destruct H as (? & ? & ?); discriminate.
Qed.




(** Two rules violated at once: the seed is ill-typed and two keys are
    missing; the missing keys are reported. *)
Example missing_keys_before_seed_type :
  load_config (scenario_with_config (YMap [(YStr "seed", YStr "abc")]))
    "config.yaml"
  = Raise (cfg_err "missing keys ['version', 'window']").
Proof. reflexivity. Qed.

(** C5: a parsed mapping that lacks one of seed, window, version is
    rejected, and the message lists the missing keys, each once, in
    sorted order, and nothing else. *)
Theorem load_config_lists_missing_keys (w : World) (config_path : string)
    (d : list (yaml * yaml)) :
  yaml_at w config_path = Some (YamlDoc (YMap d)) ->
  (exists k, In k required_keys /\ has_key k d = false) ->
  exists listed,
    load_config w config_path
    = Raise (cfg_err ("missing keys " ++ repr_list listed)) /\
    StronglySorted key_lt listed /\
    (forall k, In k listed <-> In k required_keys /\ has_key k d = false).
Proof.
  intros Hdoc [k0 [Hreq Hk0]].
  exists (sorted (missing_keys d)).
  unfold load_config. rewrite Hdoc.
  assert (Hne : missing_keys d <> []).
  { intros Hnil. apply missing_keys_nil in Hnil.
    destruct Hnil as (Hs & Hw & Hv).
    unfold required_keys in Hreq; simpl in Hreq.
    destruct Hreq as [<-|[<-|[<-|[]]]]; congruence. }
  split.
  - destruct (missing_keys d); [congruence | reflexivity].
  - clear Hne Hreq Hk0 k0.
    unfold missing_keys, required_keys. cbn [filter].
    destruct (has_key "seed" d) eqn:Hs, (has_key "window" d) eqn:Hw,
             (has_key "version" d) eqn:Hv; cbn [negb sorted fold_right].
    all: split;
      [ repeat constructor
      | intros k; cbn; split;
        [ intros H; repeat destruct H as [<-|H]; try contradiction; auto 6
        | intros [H Hk]; repeat destruct H as [<-|H]; try contradiction;
          try congruence; auto 6 ] ].
Qed.

Lemma load_config_lists_missing_keys_witness :
  exists listed,
    load_config (scenario_with_config (YMap [(YStr "window", YInt 3)]))
      "config.yaml"
    = Raise (cfg_err ("missing keys " ++ repr_list listed)) /\
    StronglySorted key_lt listed /\
    (forall k, In k listed <->
               In k required_keys /\
               has_key k [(YStr "window", YInt 3)] = false).
Proof.
  apply (load_config_lists_missing_keys
           (scenario_with_config (YMap [(YStr "window", YInt 3)]))
           "config.yaml" [(YStr "window", YInt 3)]).
  - reflexivity.
  - exists "seed". split; [simpl; auto | reflexivity].
Defined.

(** C9: a mapping whose seed is a boolean and whose window is the
    boolean true passes validation, booleans being integers for
    [isinstance]; the booleans reach the validated configuration. *)
Theorem load_config_accepts_booleans (w : World) (config_path : string)
    (d : list (yaml * yaml)) (b : bool) (version : string) :
  yaml_at w config_path = Some (YamlDoc (YMap d)) ->
  dict_get "seed" d = Some (YBool b) ->
  dict_get "window" d = Some (YBool true) ->
  dict_get "version" d = Some (YStr version) ->
  version <> "" ->
  load_config w config_path = Ok (mkConfig (PBool b) (PBool true) version).
Proof.
  intros Hdoc Hs Hw Hv Hne.
  unfold load_config. rewrite Hdoc.
  assert (M : missing_keys d = []).
  { apply missing_keys_nil; repeat split; eapply dict_get_has_key; eauto. }
  rewrite M. unfold getitem. rewrite Hs, Hw, Hv.
  cbn. destruct version; [congruence | reflexivity].
Qed.

Lemma load_config_accepts_booleans_witness :
  load_config (scenario_with_config boolean_config) "config.yaml"
  = Ok (mkConfig (PBool true) (PBool true) "v1").
Proof.
  apply (load_config_accepts_booleans
           (scenario_with_config boolean_config) "config.yaml"
           [(YStr "seed", YBool true); (YStr "window", YBool true);
            (YStr "version", YStr "v1")] true "v1").
  - reflexivity.
  - reflexivity.
  - reflexivity.
  - reflexivity.
  - discriminate.
Defined.

(** * Data loading *)

Lemma parse_failure_not_empty_input (exc : string) :
  parse_failure exc <> empty_input.
Proof. unfold parse_failure, empty_input. simpl. congruence. Qed.

(** C6: for every input path, [load_data] raises the error of the first
    violated rule in the order existence, parse failure, emptiness,
    close column, and returns the table when none is violated; a parse
    failure and an empty input never carry the same message. *)
Theorem load_data_precedence (w : World) (input_path : string) :
  match first_violation (fun r => data_rule_check r input_path)
          data_rule_order (csv_at w input_path) with
  | Some e => load_data w input_path = Raise e
  | None => exists df, csv_at w input_path = Some (CsvFrame df) /\
                       load_data w input_path = Ok df
  end /\
  (forall exc, exn_msg (parse_failure exc) <> exn_msg empty_input) /\
  (csv_at w input_path = Some CsvEmptyDataError ->
   load_data w input_path = Raise empty_input) /\
  (forall exc, csv_at w input_path = Some (CsvParserError exc) ->
               load_data w input_path = Raise (parse_failure exc)).
Proof.
  unfold load_data, data_rule_order.
  cbn [first_violation data_rule_check].
  repeat split.
  - destruct (csv_at w input_path) as [[| exc | exc | df]|]; try reflexivity.
    destruct (df_empty df); [reflexivity|].
    destruct (has_column "close" df); cbn [negb]; [|reflexivity].
    now exists df.
  - intros exc. simpl. congruence.
  - intros ->. reflexivity.
  - intros exc ->. reflexivity.
Qed.

(** A table with a header and no rows that also lacks the close column
    violates two rules; emptiness is reported. *)
Example empty_before_schema :
  load_data
    (mkWorld (args scenario_world) (yaml_at scenario_world)
       (fun _ => Some (CsvFrame (mkDF ["open"; "high"] [])))
       None None 0%Q 0%Q) "data.csv"
  = Raise empty_input.
Proof. reflexivity. Qed.

(** * The rolling-window signal *)

Section Windows.
Context {A : Type}.

Lemma firstn_skipn_nth (d : A) (l : list A) :
  forall s n, (s + n <= List.length l)%nat ->
    firstn n (skipn s l) = map (fun j => nth j l d) (seq s n).
Proof.
  induction l as [|a l IH]; intros s n H; simpl in H.
  - assert (s = 0%nat) by lia. assert (n = 0%nat) by lia. now subst.
  - destruct s as [|s].
    + destruct n as [|n]; [reflexivity|].
      cbn [skipn firstn seq map nth]. f_equal.
      specialize (IH 0%nat n ltac:(lia)). cbn [skipn] in IH.
      rewrite IH, <- seq_shift, map_map. reflexivity.
    + cbn [skipn]. rewrite (IH s n) by lia.
      rewrite <- seq_shift, map_map. reflexivity.
Qed.

Lemma window_at_length (l : list A) (w i : nat) :
  (i < List.length l)%nat ->
  List.length (window_at l w i) = Nat.min w (S i).
Proof.
  intros H. unfold window_at.
  rewrite length_firstn, length_skipn. lia.
Qed.

(** A full window is the run of [w] values that ends at [i]. *)
Lemma window_at_full (d : A) (l : list A) (w i : nat) :
  (1 <= w)%nat -> (w - 1 <= i)%nat -> (i < List.length l)%nat ->
  window_at l w i = map (fun j => nth j l d) (seq (i + 1 - w) w).
Proof.
  intros Hw Hi Hl. unfold window_at.
  replace (S i - (S i - w))%nat with w by lia.
  replace (S i - w)%nat with (i + 1 - w)%nat by lia.
  apply firstn_skipn_nth. lia.
Qed.
End Windows.



Lemma observed_length (win : list (option Q)) :
  (List.length (observed win) <= List.length win)%nat.
Proof. induction win as [|[q|] win IH]; simpl; lia. Qed.

(** Before a full window is available the rolling mean is NaN. *)
Lemma calc_mean_short (minp : nat) (win : list (option Q)) :
  (List.length win < minp)%nat -> calc_mean minp win = None.
Proof.
  intros H. unfold calc_mean.
  pose proof (observed_length win).
  destruct (Nat.leb_spec minp (List.length (observed win))); [lia|reflexivity].
Qed.



Lemma to_numeric_length (col : list cell) (close : list (option Q)) :
  to_numeric col = Some close -> List.length close = List.length col.
Proof.
  revert close. induction col as [|c col IH]; intros close H; simpl in H.
  - now inversion H.
  - destruct c; try discriminate;
      destruct (to_numeric col) as [l|]; try discriminate;
      inversion H; subst; simpl; f_equal; now apply IH.
Qed.

Lemma df_getitem_length (name : string) (df : DataFrame) (col : list cell) :
  df_getitem name df = Ok col -> List.length col = df_len df.
Proof.
  unfold df_getitem, df_len.
  destruct (column_index name (columns df)); [|discriminate].
  intros H; inversion H. apply length_map.
Qed.

Lemma column_index_has_column (name : string) (cols : list string) :
  has_column name (mkDF cols []) = true <-> column_index name cols <> None.
Proof.
  unfold has_column; simpl.
  induction cols as [|c cols IH]; simpl; [split; [discriminate|congruence]|].
  destruct (String.eqb name c); simpl; [split; [discriminate|reflexivity]|].
  rewrite IH. destruct (column_index name cols); split; congruence.
Qed.

Lemma has_column_getitem (name : string) (df : DataFrame) :
  has_column name df = true <-> exists col, df_getitem name df = Ok col.
Proof.
  pose proof (column_index_has_column name (columns df)) as H.
  unfold has_column in *; simpl in H. rewrite H.
  unfold df_getitem. destruct (column_index name (columns df)).
  - split; [eauto|discriminate].
  - split; [congruence|intros [col Hc]; discriminate].
Qed.

(** The signal before the cast: position by position against a rolling
    series given by its value at each index. *)
Lemma series_gt_nth (f : nat -> option Q) (l : list (option Q)) :
  forall start i, (i < List.length l)%nat ->
    nth i (series_gt l (map f (seq start (List.length l)))) false
    = float_gt (nth i l None) (f (start + i)%nat).
Proof.
  induction l as [|a l IH]; intros start i H; simpl in H; [lia|].
  destruct i as [|i]; cbn [List.length seq map series_gt nth].
  - now rewrite Nat.add_0_r.
  - rewrite IH by lia. now rewrite Nat.add_succ_r.
Qed.

Lemma series_gt_length (f : nat -> option Q) (l : list (option Q)) :
  forall start,
    List.length (series_gt l (map f (seq start (List.length l)))) = List.length l.
Proof.
  induction l as [|a l IH]; intros start; simpl; [reflexivity|].
  now rewrite IH.
Qed.

Lemma signal_of_length (close : list (option Q)) (w : nat) :
  List.length (signal_of close w) = List.length close.
Proof.
  unfold signal_of, astype_int, rolling_mean.
  now rewrite length_map, series_gt_length.
Qed.

Lemma signal_of_nth (close : list (option Q)) (w i : nat) :
  (i < List.length close)%nat ->
  nth i (signal_of close w) 0
  = if float_gt (nth i close None) (calc_mean w (window_at close w i))
    then 1 else 0.
Proof.
  intros H. unfold signal_of, astype_int, rolling_mean.
  pose (cast := fun b : bool => if b then 1 else 0).
  pose proof (series_gt_nth (fun j => calc_mean w (window_at close w j))
                close 0 i H) as G.
  cbn [Nat.add] in G. rewrite <- G.
  exact (map_nth cast _ false i).
Qed.

Lemma signal_of_binary (close : list (option Q)) (w : nat) (x : Z) :
  In x (signal_of close w) -> x = 0 \/ x = 1.
Proof.
  unfold signal_of, astype_int. rewrite in_map_iff.
  intros [[|] [<- _]]; auto.
Qed.

Lemma generate_signals_numeric (df : DataFrame) (window : Z)
    (col : list cell) (close : list (option Q)) :
  df_getitem "close" df = Ok col -> to_numeric col = Some close ->
  0 <= window ->
  generate_signals df (PInt window) = Ok (signal_of close (Z.to_nat window)).
Proof.
  intros Hc Hn Hw. unfold generate_signals. rewrite Hc.
  cbn [bind Monad_result result_bind rolling_validate].
  destruct (Z.ltb_spec window 0); [lia|].
  cbn [result_bind]. now rewrite Hn.
Qed.




(** * The job runner *)

(** Run the job up to its next stage, leaving the stages folded. *)
Ltac run_job :=
  cbn -[load_config np_random_seed load_data generate_signals].

(** A stage that raises ends the [try] body. *)
Ltac stage_raises :=
  right; do 2 eexists; split; [reflexivity|]; run_job; repeat split.

Lemma main_try_cases (w : World) :
  (exists cfg df signal s,
      stages_ok w cfg df signal /\
      main_try w initial_state = (Ok 0, s) /\
      out_file s = Some (PMetrics (metrics_of w cfg df signal)) /\
      stdout s = [PMetrics (metrics_of w cfg df signal)]) \/
  (exists exc s,
      main_try w initial_state = (Raise exc, s) /\
      out_file s = None /\ stdout s = [] /\
      forall cfg df signal, ~ stages_ok w cfg df signal).
Proof.
  unfold main_try, stages_ok.
  run_job.
  destruct (load_config w (arg_config (args w))) as [cfg|e] eqn:Hc.
  2:{ stage_raises. intros c d sg (H & _). discriminate. }
  run_job.
  destruct (np_random_seed (cfg_seed cfg)) as [[]|e] eqn:Hs.
  2:{ stage_raises. intros c d sg (H & H' & _).
      inversion H; subst. congruence. }
  run_job.
  destruct (load_data w (arg_input (args w))) as [df|e] eqn:Hd.
  2:{ stage_raises. intros c d sg (_ & _ & H & _). discriminate. }
  run_job.
  destruct (generate_signals df (cfg_window cfg)) as [signal|e] eqn:Hg.
  2:{ stage_raises. intros c d sg (H1 & _ & H2 & H3 & _).
      inversion H1; inversion H2; subst. congruence. }
  run_job.
  destruct (write_metrics_fails w) as [msg|] eqn:Hw.
  - stage_raises. intros c d sg (_ & _ & _ & _ & H). discriminate.
  - left. exists cfg, df, signal. eexists.
    split; [repeat split; assumption|].
    split; [reflexivity|]. run_job. split; reflexivity.
Qed.

(** What the handler leaves behind, whatever the state it starts in. *)
Lemma main_except_outcome (w : World) (exc : exn) (s : State) :
  stdout s = [] ->
  exists s',
    main_except w exc s = (Ok 1, s') /\
    stdout s' = [PError (mkErrorPayload (version_for_error s) "error"
                           (str_exn exc))] /\
    match write_error_fails w with
    | Some msg =>
        out_file s' = out_file s /\
        log s' = (log s ++ [(ERROR, ErrorEncountered (str_exn exc));
                            (ERROR, FailedToWriteErrorOutput msg)])%list
    | None =>
        out_file s' = Some (PError (mkErrorPayload (version_for_error s)
                                      "error" (str_exn exc))) /\
        log s' = (log s ++ [(ERROR, ErrorEncountered (str_exn exc))])%list
    end.
Proof.
  intros Hout. unfold main_except, try_write_error, write_json.
  cbn.
  destruct (write_error_fails w) as [msg|];
    cbn;
    eexists; (split; [reflexivity|]); cbn; rewrite Hout;
    repeat split; try reflexivity.
  now rewrite <- app_assoc.
Qed.

Lemma main_cases (w : World) :
  (exists cfg df signal s,
      stages_ok w cfg df signal /\ main w = (0, s) /\
      out_file s = Some (PMetrics (metrics_of w cfg df signal)) /\
      stdout s = [PMetrics (metrics_of w cfg df signal)]) \/
  (exists s e,
      (forall cfg df signal, ~ stages_ok w cfg df signal) /\
      main w = (1, s) /\ stdout s = [PError e] /\ e_status e = "error" /\
      match write_error_fails w with
      | Some msg =>
          out_file s = None /\
          last (log s) (INFO, JobStarted) = (ERROR, FailedToWriteErrorOutput msg)
      | None => out_file s = Some (PError e)
      end).
Proof.
  unfold main.
  destruct (main_try_cases w)
    as [(cfg & df & signal & s & Hok & Ht & Hf & Ho)
       |(exc & s & Ht & Hf & Ho & Hno)]; rewrite Ht.
  - left. exists cfg, df, signal, s. auto.
  - right. destruct (main_except_outcome w exc s Ho) as (s' & He & Hp & Hw).
    rewrite He. exists s'. eexists. split; [assumption|].
    split; [reflexivity|]. split; [exact Hp|]. split; [reflexivity|].
    destruct (write_error_fails w) as [msg|].
    + destruct Hw as [Hw1 Hw2]. split; [congruence|].
      rewrite Hw2.
      replace (log s ++ [(ERROR, ErrorEncountered (str_exn exc));
                         (ERROR, FailedToWriteErrorOutput msg)])%list
        with ((log s ++ [(ERROR, ErrorEncountered (str_exn exc))])
              ++ [(ERROR, FailedToWriteErrorOutput msg)])%list
        by (now rewrite <- app_assoc).
      apply last_last.
    + tauto.
Qed.

(** C7: the exit status is 0 exactly when the run reaches the success
    report, which is exactly when every stage goes through; it is 1 on
    every other run, where a failure is reported; and when the write of
    the failure report fails too, that is the last line of the log and
    the status is still 1. *)
Theorem main_exit_status (w : World) :
  let status := fst (main w) in
  let s := snd (main w) in
  (status = 0 <-> reported_success s) /\
  (status = 1 <-> ~ reported_success s) /\
  (status = 1 <-> reported_failure s) /\
  (status = 0 <-> exists cfg df signal, stages_ok w cfg df signal) /\
  (forall msg,
      ~ reported_success s -> write_error_fails w = Some msg ->
      status = 1 /\
      last (log s) (INFO, JobStarted) = (ERROR, FailedToWriteErrorOutput msg)).
Proof.
  cbv zeta.
  destruct (main_cases w)
    as [(cfg & df & signal & s & Hok & Hm & Hf & Ho)
       |(s & e & Hno & Hm & Ho & He & Hw)]; rewrite Hm; cbn [fst snd].
  - assert (Hs : reported_success s)
      by (exists (metrics_of w cfg df signal); auto).
    assert (Hn : ~ reported_failure s).
    { intros (e & He & _). rewrite Ho in He. discriminate. }
    split; [tauto|]. split; [split; [discriminate | tauto]|].
    split; [split; [discriminate | tauto]|].
    split; [split; [eauto | reflexivity]|].
    intros msg H. tauto.
  - assert (Hs : ~ reported_success s).
    { intros (m & _ & Hp & _). rewrite Ho in Hp. discriminate. }
    assert (Hn : reported_failure s) by (exists e; auto).
    split; [split; [discriminate | tauto]|].
    split; [tauto|]. split; [tauto|].
    split.
    + split; [discriminate|].
      intros (cfg & df & signal & H). exfalso. exact (Hno _ _ _ H).
    + intros msg _ Hmsg. rewrite Hmsg in Hw. tauto.
Qed.

(** * The reported rate *)

Lemma Zsum_binary (l : list Z) :
  (forall x, In x l -> x = 0 \/ x = 1) ->
  Zsum l = Z.of_nat (count_occ Z.eq_dec l 1) /\
  0 <= Zsum l <= Z.of_nat (List.length l).
Proof.
  induction l as [|a l IH]; intros H; cbn [Zsum fold_right count_occ List.length].
  - cbn. lia.
  - destruct IH as [IH1 IH2]; [intros x Hx; apply H; now right|].
    fold (Zsum l). destruct (H a (or_introl eq_refl)) as [-> | ->];
      destruct (Z.eq_dec _ 1) as [E|E]; try discriminate; try congruence; lia.
Qed.

Lemma Zsum_zero (l : list Z) :
  (forall x, In x l -> x = 0) -> Zsum l = 0.
Proof.
  induction l as [|a l IH]; intros H; cbn [Zsum fold_right]; [reflexivity|].
  fold (Zsum l). rewrite IH by (intros x Hx; apply H; now right).
  rewrite (H a (or_introl eq_refl)). reflexivity.
Qed.

Lemma round_half_even_comp (x y : Q) :
  (x == y)%Q -> round_half_even x = round_half_even y.
Proof.
  intros E. unfold round_half_even.
  rewrite (Qfloor_comp _ _ E).
  assert (E' : (x - inject_Z (Qfloor y) == y - inject_Z (Qfloor y))%Q)
    by now rewrite E.
  now rewrite (Qcompare_comp _ _ E' _ _ (Qeq_refl (1 # 2))).
Qed.

Lemma round_half_even_bounds (x : Q) (n : Z) :
  (0 <= x)%Q -> (x <= inject_Z n)%Q -> 0 <= round_half_even x <= n.
Proof.
  intros H0 Hn. unfold round_half_even.
  pose proof (Qfloor_resp_le _ _ H0) as F0.
  change (Qfloor 0) with 0 in F0.
  pose proof (Qfloor_resp_le _ _ Hn) as Fn. rewrite Qfloor_Z in Fn.
  assert (Hup : (1 # 2 <= x - inject_Z (Qfloor x))%Q -> Qfloor x + 1 <= n).
  { intros Hh.
    destruct (Z.eq_dec (Qfloor x) n) as [E|E]; [|lia].
    rewrite E in Hh. lra. }
  destruct (Qcompare_spec (x - inject_Z (Qfloor x)) (1 # 2)) as [E|E|E].
  - destruct (Z.even (Qfloor x)); [lia|].
    assert (Qfloor x + 1 <= n) by (apply Hup; rewrite E; apply Qle_refl). lia.
  - lia.
  - assert (Qfloor x + 1 <= n) by (apply Hup; lra). lia.
Qed.

(** A rate between 0 and 1 rounds to a number of ten-thousandths
    between 0 and 1. *)
Lemma py_round_4_rate (q : Q) :
  (0 <= q <= 1)%Q ->
  exists d, py_round (Some q) 4 = Some (inject_Z d / inject_Z 10000)%Q /\
            0 <= d <= 10000 /\
            d = round_half_even (q * inject_Z 10000).
Proof.
  intros [H0 H1]. exists (round_half_even (q * inject_Z 10000)).
  split; [reflexivity|]. split; [|reflexivity].
  apply round_half_even_bounds.
  - change 0%Q with (0 * inject_Z 10000)%Q.
    apply Qmult_le_compat_r; [assumption|discriminate].
  - change (inject_Z 10000) with (1 * inject_Z 10000)%Q at 2.
    apply Qmult_le_compat_r; [assumption|discriminate].
Qed.

Lemma series_mean_binary (signal : list Z) :
  signal <> [] ->
  (forall x, In x signal -> x = 0 \/ x = 1) ->
  series_mean signal = Some (rate_over_rows signal) /\
  (0 <= rate_over_rows signal <= 1)%Q.
Proof.
  intros Hne Hb. destruct (Zsum_binary signal Hb) as [Hs [Hlo Hhi]].
  unfold rate_over_rows. cbv zeta. rewrite <- Hs.
  split.
  - unfold series_mean. destruct signal; [congruence|reflexivity].
  - assert (Hlen : 0 < Z.of_nat (List.length signal))
      by (destruct signal; [congruence|cbn [List.length]; lia]).
    set (n := Z.of_nat (List.length signal)) in *.
    set (k := Zsum signal) in *.
    assert (Hn : (0 < inject_Z n)%Q)
      by (change (inject_Z 0 < inject_Z n)%Q; now rewrite <- Zlt_Qlt).
    split.
    + apply Qle_shift_div_l; [exact Hn|].
      rewrite Qmult_0_l. change (inject_Z 0 <= inject_Z k)%Q.
      now rewrite <- Zle_Qle.
    + apply Qle_shift_div_r; [exact Hn|].
      rewrite Qmult_1_l. now rewrite <- Zle_Qle.
Qed.

Lemma load_data_ok (w : World) (input_path : string) (df : DataFrame) :
  load_data w input_path = Ok df ->
  (0 < df_len df)%nat /\ has_column "close" df = true.
Proof.
  unfold load_data.
  destruct (csv_at w input_path) as [[| exc | exc | df']|]; try discriminate.
  destruct (df_empty df') eqn:E; [discriminate|].
  destruct (has_column "close" df') eqn:C; [|discriminate].
  cbn [negb]. intros H; inversion H; subst. split; [|assumption].
  unfold df_empty in E. unfold df_len.
  destruct (rows df); [discriminate|cbn; lia].
Qed.

Lemma load_data_frame (w : World) (input_path : string) (df : DataFrame) :
  csv_at w input_path = Some (CsvFrame df) ->
  (0 < df_len df)%nat -> has_column "close" df = true ->
  load_data w input_path = Ok df.
Proof.
  intros Hc Hl Hh. unfold load_data. rewrite Hc.
  unfold df_empty, df_len, has_column in *.
  destruct (rows df); [cbn in Hl; lia|].
  destruct (columns df); [discriminate|].
  now rewrite Hh.
Qed.

Lemma generate_signals_ok (df : DataFrame) (window : pyint) (signal : list Z) :
  generate_signals df window = Ok signal ->
  exists col close z,
    df_getitem "close" df = Ok col /\ to_numeric col = Some close /\
    window = PInt z /\ 0 <= z /\
    signal = signal_of close (Z.to_nat z).
Proof.
  unfold generate_signals.
  destruct (df_getitem "close" df) as [col|e]; [|discriminate].
  cbn [bind Monad_result result_bind].
  destruct window as [z|b]; [|discriminate].
  cbn [rolling_validate]. destruct (Z.ltb_spec z 0); [discriminate|].
  cbn [result_bind].
  destruct (to_numeric col) as [close|] eqn:N; [|discriminate].
  intros Hok; inversion Hok. exists col, close, z. auto.
Qed.

Lemma float_gt_nan_r (a : option Q) : float_gt a None = false.
Proof. now destruct a. Qed.

(** Positions without a full window, and positions whose close is
    missing, carry the signal 0. *)
Lemma signal_of_undefined (close : list (option Q)) (w i : nat) :
  (i < List.length close)%nat ->
  (i < w - 1)%nat \/ nth i close None = None ->
  nth i (signal_of close w) 0 = 0.
Proof.
  intros Hi Hu. rewrite signal_of_nth by assumption.
  destruct Hu as [Hs | Hn].
  - rewrite calc_mean_short, float_gt_nan_r; [reflexivity|].
    rewrite window_at_length by assumption. lia.
  - now rewrite Hn.
Qed.

(** C8: on every successful run the reported value is a number of
    ten-thousandths, hence has four decimal places, and lies between 0
    and 1. *)
Theorem reported_value_range (w : World) (s : State) (m : Metrics) :
  main w = (0, s) -> stdout s = [PMetrics m] ->
  exists v d,
    m_value m = Some v /\ (0 <= v <= 1)%Q /\
    (v == inject_Z d / inject_Z 10000)%Q /\ 0 <= d <= 10000.
Proof.
  intros Hm Hout.
  destruct (main_cases w)
    as [(cfg & df & signal & s' & Hok & Hm' & _ & Ho)
       |(s' & e & _ & Hm' & _)]; [|congruence].
  assert (s' = s) by congruence. subst s'.
  assert (m = metrics_of w cfg df signal) by congruence. subst m.
  destruct Hok as (_ & _ & Hd & Hg & _).
  apply load_data_ok in Hd. destruct Hd as [Hlen _].
  apply generate_signals_ok in Hg.
  destruct Hg as (col & close & z & Hc & Hn & _ & _ & ->).
  apply df_getitem_length in Hc. apply to_numeric_length in Hn.
  destruct (series_mean_binary (signal_of close (Z.to_nat z))) as [Hmean Hr].
  { intros E. apply (f_equal (@List.length Z)) in E.
    rewrite signal_of_length in E. cbn in E. lia. }
  { apply signal_of_binary. }
  destruct (py_round_4_rate _ Hr) as (d & Hd & Hb & _).
  cbn [metrics_of m_value]. rewrite Hmean, Hd.
  exists (inject_Z d / inject_Z 10000)%Q, d.
  split; [reflexivity|]. split; [|split; [reflexivity|assumption]].
  assert (H1 : (0 < inject_Z 10000)%Q) by reflexivity.
  split.
  - apply Qle_shift_div_l; [exact H1|]. rewrite Qmult_0_l.
    change (inject_Z 0 <= inject_Z d)%Q. rewrite <- Zle_Qle. lia.
  - apply Qle_shift_div_r; [exact H1|]. rewrite Qmult_1_l.
    rewrite <- Zle_Qle. lia.
Qed.

Lemma scenario_run :
  exists s,
    main scenario_world = (0, s) /\ stdout s = [PMetrics scenario_metrics].
Proof. eexists. split; vm_compute; reflexivity. Qed.

Lemma reported_value_range_witness :
  main scenario_world = (0, snd (main scenario_world)) /\
  stdout (snd (main scenario_world)) = [PMetrics scenario_metrics] /\
  exists v d,
    m_value scenario_metrics = Some v /\ (0 <= v <= 1)%Q /\
    (v == inject_Z d / inject_Z 10000)%Q /\ 0 <= d <= 10000.
Proof.
  split; [reflexivity|]. split; [reflexivity|].
  apply (reported_value_range scenario_world (snd (main scenario_world))
           scenario_metrics).
  - reflexivity.
  - reflexivity.
Defined.

Lemma main_success (w : World) (cfg : Config) (df : DataFrame)
    (signal : list Z) :
  stages_ok w cfg df signal ->
  exists s,
    main w = (0, s) /\
    out_file s = Some (PMetrics (metrics_of w cfg df signal)) /\
    stdout s = [PMetrics (metrics_of w cfg df signal)].
Proof.
  intros Hok.
  destruct (main_cases w)
    as [(cfg' & df' & signal' & s & Hok' & Hm & Hf & Ho)
       |(s & e & Hno & _)]; [|exfalso; exact (Hno _ _ _ Hok)].
  destruct Hok as (H1 & H2 & H3 & H4 & H5).
  destruct Hok' as (H1' & H2' & H3' & H4' & H5').
  assert (cfg' = cfg) by congruence. subst cfg'.
  assert (df' = df) by congruence. subst df'.
  assert (signal' = signal) by congruence. subst signal'.
  exists s. auto.
Qed.






(** C2, as the code has it: with the configuration seed 42, window 3,
    version v1 and a dataset whose close column is 1, 2, 3, 10, 1, 1,
    a run that can write its report succeeds with rows_processed 6,
    status success and value 0.3333. *)
Theorem scenario_report (w : World) (df : DataFrame) :
  yaml_at w (arg_config (args w)) = Some (YamlDoc scenario_config) ->
  csv_at w (arg_input (args w)) = Some (CsvFrame df) ->
  df_getitem "close" df = Ok scenario_close ->
  write_metrics_fails w = None ->
  exists s m,
    main w = (0, s) /\
    out_file s = Some (PMetrics m) /\ stdout s = [PMetrics m] /\
    m_value m = Some (3333 # 10000)%Q /\
    m_rows_processed m = 6 /\ m_status m = "success" /\
    m_version m = "v1" /\ m_seed m = PInt 42.
Proof.
  intros Hy Hc Hcol Hwr.
  pose proof (df_getitem_length _ _ _ Hcol) as Hlen. cbn in Hlen.
  assert (Hcfg : load_config w (arg_config (args w))
                 = Ok (mkConfig (PInt 42) (PInt 3) "v1")).
  { unfold load_config. now rewrite Hy. }
  assert (Hd : load_data w (arg_input (args w)) = Ok df).
  { apply load_data_frame; [assumption|lia|].
    apply has_column_getitem. eauto. }
  pose proof (generate_signals_numeric df 3 scenario_close
                [Some 1; Some 2; Some 3; Some 10; Some 1; Some 1]%Q
                Hcol eq_refl ltac:(lia)) as Hg.
  destruct (main_success w (mkConfig (PInt 42) (PInt 3) "v1") df _
              (conj Hcfg (conj eq_refl (conj Hd (conj Hg Hwr)))))
    as (s & Hm & Hf & Ho).
  exists s. eexists. split; [exact Hm|]. split; [exact Hf|].
  split; [exact Ho|]. cbn [metrics_of m_value m_rows_processed m_status
                           m_version m_seed cfg_version cfg_seed].
  rewrite <- Hlen. repeat split. 
Qed.

Lemma scenario_report_witness :
  exists s m,
    main scenario_world = (0, s) /\
    out_file s = Some (PMetrics m) /\ stdout s = [PMetrics m] /\
    m_value m = Some (3333 # 10000)%Q /\
    m_rows_processed m = 6 /\ m_status m = "success" /\
    m_version m = "v1" /\ m_seed m = PInt 42.
Proof.
  apply (scenario_report scenario_world scenario_frame).
  - reflexivity.
  - reflexivity.
  - reflexivity.
  - reflexivity.
Defined.

(** Against C2 as the specification words it: on the scenario the run
    succeeds with six rows processed, and its value is 0.3333, not
    0.25. *)
Lemma scenario_value_is_not_a_quarter :
  exists s m,
    main scenario_world = (0, s) /\ stdout s = [PMetrics m] /\
    m_rows_processed m = 6 /\ m_status m = "success" /\
    float_eq (m_value m) (Some (3333 # 10000)%Q) /\
    ~ float_eq (m_value m) (Some (25 # 100)%Q).
Proof.
  destruct scenario_run as (s & Hm & Ho).
  exists s. eexists. split; [exact Hm|]. split; [exact Ho|].
  split; [reflexivity|]. split; [reflexivity|]. split; [reflexivity|].
  vm_compute. discriminate.
Qed.

(** * Further properties of the job runner *)

(** What [main] makes of a [try] body that raised. *)
Lemma main_of_raise (w : World) (exc : exn) (s : State) :
  main_try w initial_state = (Raise exc, s) -> stdout s = [] ->
  fst (main w) = 1 /\
  stdout (snd (main w))
  = [PError (mkErrorPayload (version_for_error s) "error" (exn_msg exc))] /\
  log (snd (main w)) = (log s ++ handler_log w (exn_msg exc))%list /\
  (write_error_fails w = None ->
   out_file (snd (main w))
   = Some (PError (mkErrorPayload (version_for_error s) "error" (exn_msg exc)))).
Proof.
  intros Ht Ho. unfold main. rewrite Ht.
  destruct (main_except_outcome w exc s Ho) as (s' & He & Hp & Hw).
  rewrite He. cbn [fst snd]. unfold handler_log.
  split; [reflexivity|]. split; [exact Hp|].
  destruct (write_error_fails w) as [msg|]; destruct Hw as [Hf Hl].
  - split; [exact Hl | discriminate].
  - split; [exact Hl | intros _; exact Hf].
Qed.

Lemma main_try_config_raises (w : World) (e : exn) :
  load_config w (arg_config (args w)) = Raise e ->
  main_try w initial_state
  = (Raise e, mkState [(INFO, JobStarted)] None [] "v1").
Proof. intros H. unfold main_try. run_job. rewrite H. reflexivity. Qed.

Lemma main_try_seed_raises (w : World) (cfg : Config) (e : exn) :
  load_config w (arg_config (args w)) = Ok cfg ->
  np_random_seed (cfg_seed cfg) = Raise e ->
  main_try w initial_state
  = (Raise e, mkState [(INFO, JobStarted)] None [] (cfg_version cfg)).
Proof.
  intros H1 H2. unfold main_try. run_job. rewrite H1. run_job.
  rewrite H2. reflexivity.
Qed.

Lemma main_try_data_raises (w : World) (cfg : Config) (e : exn) :
  load_config w (arg_config (args w)) = Ok cfg ->
  np_random_seed (cfg_seed cfg) = Ok tt ->
  load_data w (arg_input (args w)) = Raise e ->
  main_try w initial_state
  = (Raise e, mkState (config_log cfg) None [] (cfg_version cfg)).
Proof.
  intros H1 H2 H3. unfold main_try. run_job. rewrite H1. run_job.
  rewrite H2. run_job. rewrite H3. reflexivity.
Qed.

Lemma main_try_signal_raises (w : World) (cfg : Config) (df : DataFrame)
    (e : exn) :
  load_config w (arg_config (args w)) = Ok cfg ->
  np_random_seed (cfg_seed cfg) = Ok tt ->
  load_data w (arg_input (args w)) = Ok df ->
  generate_signals df (cfg_window cfg) = Raise e ->
  main_try w initial_state
  = (Raise e,
     mkState (config_log cfg ++ [(INFO, DataLoaded (Z.of_nat (df_len df)))])
       None [] (cfg_version cfg)).
Proof.
  intros H1 H2 H3 H4. unfold main_try. run_job. rewrite H1. run_job.
  rewrite H2. run_job. rewrite H3. run_job. rewrite H4. reflexivity.
Qed.

Lemma main_try_write_raises (w : World) (cfg : Config) (df : DataFrame)
    (signal : list Z) (msg : string) :
  load_config w (arg_config (args w)) = Ok cfg ->
  np_random_seed (cfg_seed cfg) = Ok tt ->
  load_data w (arg_input (args w)) = Ok df ->
  generate_signals df (cfg_window cfg) = Ok signal ->
  write_metrics_fails w = Some msg ->
  main_try w initial_state
  = (Raise (mkExn OSError msg),
     mkState (config_log cfg ++
              [(INFO, DataLoaded (Z.of_nat (df_len df)));
               (INFO, RollingMeanCalculated (cfg_window cfg));
               (INFO, SignalsGenerated)])
       None [] (cfg_version cfg)).
Proof.
  intros H1 H2 H3 H4 H5. unfold main_try. run_job. rewrite H1. run_job.
  rewrite H2. run_job. rewrite H3. run_job. rewrite H4. run_job.
  rewrite H5. reflexivity.
Qed.

Lemma main_try_returns (w : World) (cfg : Config) (df : DataFrame)
    (signal : list Z) :
  stages_ok w cfg df signal ->
  main_try w initial_state
  = (Ok 0,
     mkState (config_log cfg ++
              [(INFO, DataLoaded (Z.of_nat (df_len df)));
               (INFO, RollingMeanCalculated (cfg_window cfg));
               (INFO, SignalsGenerated);
               (INFO, MetricsSummary (py_round (series_mean signal) 4)
                        (Z.of_nat (df_len df)));
               (INFO, JobCompleted
                        (py_int ((clock_end w - clock_start w)
                                 * inject_Z 1000)%Q))])
       (Some (PMetrics (metrics_of w cfg df signal)))
       [PMetrics (metrics_of w cfg df signal)] (cfg_version cfg)).
Proof.
  intros (H1 & H2 & H3 & H4 & H5). unfold main_try. run_job. rewrite H1.
  run_job. rewrite H2. run_job. rewrite H3. run_job. rewrite H4. run_job.
  rewrite H5. reflexivity.
Qed.

Lemma load_data_returns_parsed (w : World) (input_path : string)
    (df : DataFrame) :
  load_data w input_path = Ok df -> csv_at w input_path = Some (CsvFrame df).
Proof.
  unfold load_data.
  destruct (csv_at w input_path) as [[| exc | exc | df']|]; try discriminate.
  destruct (df_empty df'); [discriminate|].
  destruct (negb (has_column "close" df')); [discriminate|].
  intros Hok; now inversion Hok.
Qed.

(** X1: on a successful run, rows_processed is the number of data rows
    of the table the parser returned for the input path, and it is
    positive. *)
Theorem rows_processed_is_row_count (w : World) (s : State) (m : Metrics) :
  main w = (0, s) -> stdout s = [PMetrics m] ->
  exists df,
    csv_at w (arg_input (args w)) = Some (CsvFrame df) /\
    m_rows_processed m = Z.of_nat (List.length (rows df)) /\
    0 < m_rows_processed m.
Proof.
  intros Hm Hout.
  destruct (main_cases w)
    as [(cfg & df & signal & s' & Hok & Hm' & _ & Ho)
       |(s' & e & _ & Hm' & _)]; [|congruence].
  assert (s' = s) by congruence. subst s'.
  assert (m = metrics_of w cfg df signal) by congruence. subst m.
  destruct Hok as (_ & _ & Hd & _).
  exists df. split; [now apply load_data_returns_parsed|].
  split; [reflexivity|].
  destruct (load_data_ok _ _ _ Hd) as [Hlen _].
  cbn [metrics_of m_rows_processed]. lia.
Qed.

Lemma rows_processed_is_row_count_witness :
  exists df,
    csv_at scenario_world "data.csv" = Some (CsvFrame df) /\
    m_rows_processed scenario_metrics = Z.of_nat (List.length (rows df)) /\
    0 < m_rows_processed scenario_metrics.
Proof.
  apply (rows_processed_is_row_count scenario_world
           (snd (main scenario_world)) scenario_metrics).
  - reflexivity.
  - reflexivity.
Defined.

(** X2: when the configuration is rejected the run exits with 1, the
    report carries the fallback version v1 and the message of the
    configuration error, the log holds the start line and the error and
    nothing about the data, and none of this depends on the input
    file. *)
Theorem config_failure_report (w : World) (e : exn) :
  load_config w (arg_config (args w)) = Raise e ->
  fst (main w) = 1 /\
  stdout (snd (main w)) = [PError (mkErrorPayload "v1" "error" (exn_msg e))] /\
  log (snd (main w)) = (INFO, JobStarted) :: handler_log w (exn_msg e) /\
  (write_error_fails w = None ->
   out_file (snd (main w))
   = Some (PError (mkErrorPayload "v1" "error" (exn_msg e)))).
Proof.
  intros H.
  exact (main_of_raise w e _ (main_try_config_raises w e H) eq_refl).
Qed.

Lemma config_failure_report_witness :
  fst (main scenario_without_config) = 1 /\
  stdout (snd (main scenario_without_config))
  = [PError (mkErrorPayload "v1" "error"
               "Config file not found: config.yaml")] /\
  log (snd (main scenario_without_config))
  = (INFO, JobStarted)
    :: handler_log scenario_without_config "Config file not found: config.yaml" /\
  (write_error_fails scenario_without_config = None ->
   out_file (snd (main scenario_without_config))
   = Some (PError (mkErrorPayload "v1" "error"
                     "Config file not found: config.yaml"))).
Proof.
  apply (config_failure_report scenario_without_config
           (mkExn FileNotFoundError "Config file not found: config.yaml")).
  reflexivity.
Defined.

(** X3: a run that fails after its configuration was loaded reports the
    version of that configuration, not the fallback. *)
Theorem failure_after_config_keeps_version (w : World) (cfg : Config) :
  load_config w (arg_config (args w)) = Ok cfg ->
  fst (main w) = 1 ->
  exists msg,
    stdout (snd (main w))
    = [PError (mkErrorPayload (cfg_version cfg) "error" msg)].
Proof.
  intros Hc Hst.
  destruct (np_random_seed (cfg_seed cfg)) as [[]|e] eqn:Hs.
  2:{ exists (exn_msg e).
      exact (proj1 (proj2 (main_of_raise w e _
               (main_try_seed_raises w cfg e Hc Hs) eq_refl))). }
  destruct (load_data w (arg_input (args w))) as [df|e] eqn:Hd.
  2:{ exists (exn_msg e).
      exact (proj1 (proj2 (main_of_raise w e _
               (main_try_data_raises w cfg e Hc Hs Hd) eq_refl))). }
  destruct (generate_signals df (cfg_window cfg)) as [signal|e] eqn:Hg.
  2:{ exists (exn_msg e).
      exact (proj1 (proj2 (main_of_raise w e _
               (main_try_signal_raises w cfg df e Hc Hs Hd Hg) eq_refl))). }
  destruct (write_metrics_fails w) as [msg|] eqn:Hw.
  - exists msg.
    exact (proj1 (proj2 (main_of_raise w _ _
             (main_try_write_raises w cfg df signal msg Hc Hs Hd Hg Hw)
             eq_refl))).
  - exfalso.
    destruct (main_success w cfg df signal) as (s & Hm & _).
    { unfold stages_ok. auto. }
    rewrite Hm in Hst. discriminate.
Qed.

Lemma failure_after_config_keeps_version_witness :
  exists msg,
    stdout (snd (main scenario_without_input))
    = [PError (mkErrorPayload "v1" "error" msg)].
Proof.
  apply (failure_after_config_keeps_version scenario_without_input
           (mkConfig (PInt 42) (PInt 3) "v1")).
  - reflexivity.
  - reflexivity.
Defined.

(** X4: when the configuration loads and the seed is accepted but the
    dataset is rejected (a missing input file included), the run exits
    with 1, the report carries the message of the data error, and the
    log holds the three configuration lines, then the error, and no
    line about loaded rows. *)
Theorem data_failure_report (w : World) (cfg : Config) (e : exn) :
  load_config w (arg_config (args w)) = Ok cfg ->
  np_random_seed (cfg_seed cfg) = Ok tt ->
  load_data w (arg_input (args w)) = Raise e ->
  fst (main w) = 1 /\
  stdout (snd (main w))
  = [PError (mkErrorPayload (cfg_version cfg) "error" (exn_msg e))] /\
  log (snd (main w)) = (config_log cfg ++ handler_log w (exn_msg e))%list /\
  (forall n, ~ In (INFO, DataLoaded n) (log (snd (main w)))).
Proof.
  intros Hc Hs Hd.
  destruct (main_of_raise w e _ (main_try_data_raises w cfg e Hc Hs Hd) eq_refl)
    as (H1 & H2 & H3 & _).
  cbn [version_for_error log] in *.
  repeat split; try assumption.
  intros n Hin. rewrite H3 in Hin. unfold config_log, handler_log in Hin.
  apply in_app_or in Hin. destruct Hin as [Hin|Hin].
  - cbn in Hin. repeat destruct Hin as [Hin|Hin]; try discriminate; assumption.
  - destruct (write_error_fails w); cbn in Hin;
      repeat destruct Hin as [Hin|Hin]; try discriminate; assumption.
Qed.

Lemma data_failure_report_witness :
  fst (main scenario_without_input) = 1 /\
  stdout (snd (main scenario_without_input))
  = [PError (mkErrorPayload "v1" "error" "Input file not found: data.csv")] /\
  log (snd (main scenario_without_input))
  = (config_log (mkConfig (PInt 42) (PInt 3) "v1")
     ++ handler_log scenario_without_input "Input file not found: data.csv")%list /\
  (forall n, ~ In (INFO, DataLoaded n) (log (snd (main scenario_without_input)))).
Proof.
  apply (data_failure_report scenario_without_input
           (mkConfig (PInt 42) (PInt 3) "v1")
           (mkExn FileNotFoundError "Input file not found: data.csv")).
  - reflexivity.
  - reflexivity.
  - reflexivity.
Defined.

(** X5: validation puts no bound on the seed, seeding does: with a
    loaded configuration whose seed is negative or above 2^32 - 1 the
    run exits with 1 on the seeding error, before the configuration is
    logged and before the input is read. *)
Theorem seed_out_of_range_fails (w : World) (cfg : Config) :
  load_config w (arg_config (args w)) = Ok cfg ->
  int_val (cfg_seed cfg) < 0 \/ 2 ^ 32 <= int_val (cfg_seed cfg) ->
  fst (main w) = 1 /\
  stdout (snd (main w))
  = [PError (mkErrorPayload (cfg_version cfg) "error"
               "Seed must be between 0 and 2**32 - 1")] /\
  log (snd (main w))
  = (INFO, JobStarted) :: handler_log w "Seed must be between 0 and 2**32 - 1".
Proof.
  intros Hc Hr.
  assert (Hs : np_random_seed (cfg_seed cfg)
               = Raise (mkExn ValueError "Seed must be between 0 and 2**32 - 1")).
  { unfold np_random_seed.
    destruct (Z.gtb_spec (int_val (cfg_seed cfg)) (2 ^ 32 - 1));
      [reflexivity|].
    destruct (Z.ltb_spec (int_val (cfg_seed cfg)) 0); [reflexivity|lia]. }
  destruct (main_of_raise w _ _ (main_try_seed_raises w cfg _ Hc Hs) eq_refl)
    as (H1 & H2 & H3 & _).
  auto.
Qed.

Lemma seed_out_of_range_fails_witness :
  fst (main (scenario_with_config negative_seed_config)) = 1 /\
  stdout (snd (main (scenario_with_config negative_seed_config)))
  = [PError (mkErrorPayload "v2" "error"
               "Seed must be between 0 and 2**32 - 1")] /\
  log (snd (main (scenario_with_config negative_seed_config)))
  = (INFO, JobStarted)
    :: handler_log (scenario_with_config negative_seed_config)
         "Seed must be between 0 and 2**32 - 1".
Proof.
  apply (seed_out_of_range_fails (scenario_with_config negative_seed_config)
           (mkConfig (PInt (-1)) (PInt 3) "v2")).
  - reflexivity.
  - left. reflexivity.
Defined.

(** X6: a configuration whose window is a boolean passes validation,
    yet no run with it succeeds: the exit status is 1. *)
Theorem boolean_window_run_fails (w : World) (cfg : Config) (b : bool) :
  load_config w (arg_config (args w)) = Ok cfg ->
  cfg_window cfg = PBool b ->
  fst (main w) = 1 /\ reported_failure (snd (main w)).
Proof.
  intros Hc Hb.
  destruct (main_cases w)
    as [(cfg' & df & signal & s & Hok & _)
       |(s & e & _ & Hm & Ho & He & _)].
  - exfalso. destruct Hok as (Hc' & _ & _ & Hg & _).
    assert (cfg' = cfg) by congruence. subst cfg'.
    rewrite Hb in Hg. apply generate_signals_ok in Hg.
    destruct Hg as (_ & _ & z & _ & _ & Hz & _). discriminate.
  - rewrite Hm. cbn [fst snd]. split; [reflexivity|].
    exists e. auto.
Qed.

Lemma boolean_window_run_fails_witness :
  fst (main (scenario_with_config boolean_config)) = 1 /\
  reported_failure (snd (main (scenario_with_config boolean_config))).
Proof.
  apply (boolean_window_run_fails (scenario_with_config boolean_config)
           (mkConfig (PBool true) (PBool true) "v1") true).
  - reflexivity.
  - reflexivity.
Defined.

(** X7: a successful run logs exactly eight lines, all at level INFO,
    in the order start, configuration loaded, configuration verified,
    rows loaded, rolling mean, signals, metrics summary, completion; the
    summary carries the reported value and the completion line the
    reported latency. *)
Theorem success_log_lines (w : World) (s : State) (m : Metrics) :
  main w = (0, s) -> stdout s = [PMetrics m] ->
  exists seed window,
    log s
    = [(INFO, JobStarted);
       (INFO, ConfigLoaded seed window (m_version m));
       (INFO, ConfigurationVerified);
       (INFO, DataLoaded (m_rows_processed m));
       (INFO, RollingMeanCalculated window);
       (INFO, SignalsGenerated);
       (INFO, MetricsSummary (m_value m) (m_rows_processed m));
       (INFO, JobCompleted (m_latency_ms m))] /\
    seed = m_seed m /\
    version_for_error s = m_version m.
Proof.
  intros Hm Hout.
  destruct (main_cases w)
    as [(cfg & df & signal & s' & Hok & Hm' & _ & Ho)
       |(s' & e & _ & Hm' & _)]; [|congruence].
  assert (s' = s) by congruence. subst s'.
  assert (m = metrics_of w cfg df signal) by congruence. subst m.
  pose proof (main_try_returns w cfg df signal Hok) as Ht.
  unfold main in Hm. rewrite Ht in Hm. inversion Hm; subst s.
  exists (cfg_seed cfg), (cfg_window cfg). repeat split.
Qed.

Lemma success_log_lines_witness :
  exists seed window,
    log (snd (main scenario_world))
    = [(INFO, JobStarted);
       (INFO, ConfigLoaded seed window (m_version scenario_metrics));
       (INFO, ConfigurationVerified);
       (INFO, DataLoaded (m_rows_processed scenario_metrics));
       (INFO, RollingMeanCalculated window);
       (INFO, SignalsGenerated);
       (INFO, MetricsSummary (m_value scenario_metrics)
                (m_rows_processed scenario_metrics));
       (INFO, JobCompleted (m_latency_ms scenario_metrics))] /\
    seed = m_seed scenario_metrics /\
    version_for_error (snd (main scenario_world)) = m_version scenario_metrics.
Proof.
  apply (success_log_lines scenario_world (snd (main scenario_world))
           scenario_metrics).
  - reflexivity.
  - reflexivity.
Defined.

(** * Further properties of the report's numbers *)




Lemma round_half_even_near (x : Q) :
  (inject_Z (round_half_even x) - x <= 1 # 2)%Q /\
  (x - inject_Z (round_half_even x) <= 1 # 2)%Q.
Proof.
  unfold round_half_even.
  pose proof (Qfloor_le x) as Hlo. pose proof (Qlt_floor x) as Hhi.
  rewrite inject_Z_plus in Hhi. change (inject_Z 1) with 1%Q in Hhi.
  destruct (Qcompare_spec (x - inject_Z (Qfloor x)) (1 # 2)) as [E|E|E].
  - destruct (Z.even (Qfloor x)).
    + split; lra.
    + rewrite inject_Z_plus. change (inject_Z 1) with 1%Q. split; lra.
  - split; lra.
  - rewrite inject_Z_plus. change (inject_Z 1) with 1%Q. split; lra.
Qed.

(** X9: on a successful run the reported value is within 0.00005 of the
    exact rate, the rows whose signal is 1 over all the rows. *)
Theorem reported_value_near_rate (w : World) (s : State) (m : Metrics) :
  main w = (0, s) -> stdout s = [PMetrics m] ->
  exists cfg df signal v,
    load_config w (arg_config (args w)) = Ok cfg /\
    load_data w (arg_input (args w)) = Ok df /\
    generate_signals df (cfg_window cfg) = Ok signal /\
    m_value m = Some v /\
    (v - rate_over_rows signal <= 1 # 20000)%Q /\
    (rate_over_rows signal - v <= 1 # 20000)%Q.
Proof.
  intros Hm Hout.
  destruct (main_cases w)
    as [(cfg & df & signal & s' & Hok & Hm' & _ & Ho)
       |(s' & e & _ & Hm' & _)]; [|congruence].
  assert (s' = s) by congruence. subst s'.
  assert (m = metrics_of w cfg df signal) by congruence. subst m.
  destruct Hok as (Hc & _ & Hd & Hg & _).
  destruct (load_data_ok _ _ _ Hd) as [Hlen _].
  destruct (generate_signals_ok _ _ _ Hg)
    as (col & close & z & Hcol & Hnum & _ & _ & Hsig).
  apply df_getitem_length in Hcol. apply to_numeric_length in Hnum.
  destruct (series_mean_binary signal) as [Hmean Hr].
  { intros E. apply (f_equal (@List.length Z)) in E.
    subst signal. rewrite signal_of_length in E. cbn in E. lia. }
  { subst signal. apply signal_of_binary. }
  destruct (py_round_4_rate _ Hr) as (d & Hv & _ & Hdef).
  exists cfg, df, signal, (inject_Z d / inject_Z 10000)%Q.
  repeat (split; [assumption|]).
  split; [cbn [metrics_of m_value]; now rewrite Hmean|].
  destruct (round_half_even_near (rate_over_rows signal * inject_Z 10000))
    as [H1 H2].
  rewrite <- Hdef in H1, H2.
  set (r := rate_over_rows signal) in *.
  set (dq := inject_Z d) in *.
  change (inject_Z 10000) with (10000 # 1)%Q in *.
  unfold Qdiv. change (/ (10000 # 1))%Q with (1 # 10000)%Q.
  split; lra.
Qed.

Lemma reported_value_near_rate_witness :
  exists cfg df signal v,
    load_config scenario_world "config.yaml" = Ok cfg /\
    load_data scenario_world "data.csv" = Ok df /\
    generate_signals df (cfg_window cfg) = Ok signal /\
    m_value scenario_metrics = Some v /\
    (v - rate_over_rows signal <= 1 # 20000)%Q /\
    (rate_over_rows signal - v <= 1 # 20000)%Q.
Proof.
  apply (reported_value_near_rate scenario_world
           (snd (main scenario_world)) scenario_metrics).
  - reflexivity.
  - reflexivity.
Defined.

(** * Further properties of the signal *)

(** X10: whenever [generate_signals] returns, the window was a plain
    non-negative integer, the close column was numeric, and the signal
    has one entry per row, each 0 or 1. *)
Theorem generate_signals_shape (df : DataFrame) (window : pyint)
    (signal : list Z) :
  generate_signals df window = Ok signal ->
  List.length signal = df_len df /\
  (forall x, In x signal -> x = 0 \/ x = 1) /\
  (exists z, window = PInt z /\ 0 <= z) /\
  (exists col, df_getitem "close" df = Ok col /\
               forall t, ~ In (Str t) col).
Proof.
  intros Hg.
  destruct (generate_signals_ok _ _ _ Hg)
    as (col & close & z & Hcol & Hnum & Hw & Hz & ->).
  split; [|split; [|split]].
  - rewrite signal_of_length, (to_numeric_length _ _ Hnum).
    now apply df_getitem_length with "close".
  - apply signal_of_binary.
  - now exists z.
  - exists col. split; [assumption|].
    clear Hcol Hg. revert close Hnum.
    induction col as [|c col IH]; intros close Hnum t Hin; [contradiction|].
    cbn [to_numeric] in Hnum.
    destruct c; try discriminate;
      destruct (to_numeric col) as [l|] eqn:E; try discriminate;
      destruct Hin as [Hin|Hin]; try discriminate; exact (IH l eq_refl t Hin).
Qed.

Lemma generate_signals_shape_witness :
  List.length [0; 0; 1; 1; 0; 0] = df_len scenario_frame /\
  (forall x, In x [0; 0; 1; 1; 0; 0] -> x = 0 \/ x = 1) /\
  (exists z, PInt 3 = PInt z /\ 0 <= z) /\
  (exists col, df_getitem "close" scenario_frame = Ok col /\
               forall t, ~ In (Str t) col).
Proof.
  apply (generate_signals_shape scenario_frame (PInt 3) [0; 0; 1; 1; 0; 0]).
  reflexivity.
Defined.

Lemma observed_In (win : list (option Q)) (q : Q) :
  In q (observed win) <-> In (Some q) win.
Proof.
  induction win as [|[a|] win IH]; cbn [observed In].
  - tauto.
  - rewrite IH. split; intros [H|H]; auto; left; congruence.
  - rewrite IH. split; [auto|]. intros [H|H]; [discriminate|assumption].
Qed.

Lemma Qsum_const (l : list Q) (c : Q) :
  (forall q, In q l -> q == c)%Q ->
  (Qsum l == inject_Z (Z.of_nat (List.length l)) * c)%Q.
Proof.
  induction l as [|a l IH]; intros H.
  - cbn. ring.
  - cbn [Qsum fold_right List.length]. fold (Qsum l).
    rewrite Nat2Z.inj_succ. unfold Z.succ. rewrite inject_Z_plus.
    rewrite (H a (or_introl eq_refl)), IH by (intros q Hq; apply H; now right).
    change (inject_Z 1) with 1%Q. ring.
Qed.

(** The mean of a window whose observations all equal [c] is [c]. *)
Lemma calc_mean_const (minp : nat) (win : list (option Q)) (c mean : Q) :
  (forall q, In (Some q) win -> q == c)%Q ->
  calc_mean minp win = Some mean -> (mean == c)%Q.
Proof.
  intros Hall. unfold calc_mean.
  destruct ((minp <=? _)%nat && (0 <? _)%nat)%bool eqn:E; [|discriminate].
  apply andb_true_iff in E. destruct E as [_ E]. apply Nat.ltb_lt in E.
  intros Hm; inversion Hm; subst mean.
  rewrite (Qsum_const (observed win) c)
    by (intros q Hq; apply Hall; now apply observed_In).
  field. intros Hz.
  assert (Hpos : (0 < inject_Z (Z.of_nat (List.length (observed win))))%Q).
  { change (inject_Z 0 < inject_Z (Z.of_nat (List.length (observed win))))%Q.
    rewrite <- Zlt_Qlt. lia. }
  rewrite Hz in Hpos. discriminate.
Qed.

(** A position whose window holds one value only carries the signal 0:
    the comparison with the mean is strict. *)
Lemma signal_of_flat_window (close : list (option Q)) (w i : nat) (c : Q) :
  (i < List.length close)%nat ->
  (forall q, In (Some q) (window_at close w i) -> q == c)%Q ->
  (forall q, nth i close None = Some q -> q == c)%Q ->
  nth i (signal_of close w) 0 = 0.
Proof.
  intros Hi Hwin Hc. rewrite signal_of_nth by assumption.
  destruct (nth i close None) as [q|] eqn:Eq; [|reflexivity].
  destruct (calc_mean w (window_at close w i)) as [mean|] eqn:Em;
    [|reflexivity].
  pose proof (calc_mean_const _ _ _ _ Hwin Em) as Hmean.
  pose proof (Hc q eq_refl) as Hq.
  unfold float_gt.
  assert (Hle : Qle_bool q mean = true)
    by (apply Qle_bool_iff; rewrite Hq, Hmean; apply Qle_refl).
  now rewrite Hle.
Qed.

Lemma all_zero_reports_zero (signal : list Z) :
  signal <> [] -> (forall x, In x signal -> x = 0) ->
  float_eq (py_round (series_mean signal) 4) (Some 0%Q).
Proof.
  intros Hne Hz. unfold series_mean. rewrite (Zsum_zero _ Hz).
  destruct signal as [|a l]; [congruence|].
  cbn [py_round float_eq].
  rewrite (round_half_even_comp _ 0%Q).
  - reflexivity.
  - unfold Qdiv. rewrite !Qmult_0_l. reflexivity.
Qed.

(** With a window of 1 a row is compared with itself. *)
Lemma signal_of_one (close : list (option Q)) (i : nat) :
  (i < List.length close)%nat -> nth i (signal_of close 1) 0 = 0.
Proof.
  intros Hi. destruct (nth i close None) as [q|] eqn:Eq.
  - apply (signal_of_flat_window close 1 i q Hi).
    + rewrite (window_at_full None close 1 i) by lia.
      replace (i + 1 - 1)%nat with i by lia. cbn [seq map In].
      intros q' [H|[]]. rewrite Eq in H. inversion H. reflexivity.
    + intros q' H. rewrite Eq in H. inversion H. reflexivity.
  - apply signal_of_undefined; [assumption|now right].
Qed.

(** X11: with a window of 1 every row is compared with itself, so the
    signal is 0 on every row of every dataset and the rounded rate of a
    non-empty one is 0. *)
Theorem window_of_one_never_signals (df : DataFrame) (signal : list Z) :
  generate_signals df (PInt 1) = Ok signal ->
  (forall x, In x signal -> x = 0) /\
  (signal <> [] -> float_eq (py_round (series_mean signal) 4) (Some 0%Q)).
Proof.
  intros Hg.
  destruct (generate_signals_ok _ _ _ Hg)
    as (col & close & z & _ & _ & Hw & _ & Hsig).
  inversion Hw; subst z. change (Z.to_nat 1) with 1%nat in Hsig.
  assert (Hz : forall x, In x signal -> x = 0).
  { intros x Hx. destruct (In_nth _ _ 0 Hx) as (i & Hi & <-).
    subst signal. rewrite signal_of_length in Hi.
    now apply signal_of_one. }
  split; [exact Hz|]. intros Hne. now apply all_zero_reports_zero.
Qed.

Lemma window_of_one_never_signals_witness :
  (forall x, In x [0; 0; 0; 0; 0; 0] -> x = 0) /\
  ([0; 0; 0; 0; 0; 0] <> [] ->
   float_eq (py_round (series_mean [0; 0; 0; 0; 0; 0]) 4) (Some 0%Q)).
Proof.
  apply (window_of_one_never_signals scenario_frame [0; 0; 0; 0; 0; 0]).
  reflexivity.
Defined.

Lemma observed_length_lt (win : list (option Q)) :
  In None win -> (List.length (observed win) < List.length win)%nat.
Proof.
  induction win as [|[q|] win IH]; cbn [observed List.length In].
  - contradiction.
  - intros [H|H]; [discriminate|]. specialize (IH H). lia.
  - intros _. pose proof (observed_length win). lia.
Qed.

Lemma calc_mean_missing (minp : nat) (win : list (option Q)) :
  In None win -> (List.length win <= minp)%nat -> calc_mean minp win = None.
Proof.
  intros Hin Hlen. unfold calc_mean.
  pose proof (observed_length_lt win Hin).
  destruct (Nat.leb_spec minp (List.length (observed win))); [lia|reflexivity].
Qed.

(** X12: a missing close value blanks the signal on its own row and on
    the [window - 1] rows after it, whose windows all contain it. *)
Theorem missing_value_blanks_window (df : DataFrame) (window : Z)
    (col : list cell) (close : list (option Q)) (signal : list Z) (j i : nat) :
  df_getitem "close" df = Ok col -> to_numeric col = Some close ->
  generate_signals df (PInt window) = Ok signal ->
  nth j close None = None ->
  (j <= i < j + Z.to_nat window)%nat -> (i < List.length close)%nat ->
  nth i signal 0 = 0.
Proof.
  intros Hcol Hnum Hg Hj [Hlo Hhi] Hi.
  destruct (generate_signals_ok _ _ _ Hg)
    as (col' & close' & z & Hcol' & Hnum' & Hw & Hz & ->).
  inversion Hw; subst z.
  assert (col' = col) by congruence. subst col'.
  assert (close' = close) by congruence. subst close'.
  set (w := Z.to_nat window) in *.
  destruct (Nat.lt_ge_cases i (w - 1)) as [Hs|Hf].
  - apply signal_of_undefined; [assumption|now left].
  - rewrite signal_of_nth by assumption.
    rewrite calc_mean_missing, float_gt_nan_r; [reflexivity| |].
    + rewrite (window_at_full None close w i) by lia.
      apply in_map_iff. exists j. split; [exact Hj|].
      apply in_seq. lia.
    + rewrite window_at_length by assumption. lia.
Qed.

Lemma missing_value_blanks_window_witness :
  nth 3 [0; 0; 0; 0; 1] 0 = 0.
Proof.
  apply (missing_value_blanks_window
           (mkDF ["close"] [[Num 1]; [NaN]; [Num 5]; [Num 9]; [Num 20]]) 3
           [Num 1; NaN; Num 5; Num 9; Num 20]
           [Some 1; None; Some 5; Some 9; Some 20]%Q
           [0; 0; 0; 0; 1] 1 3).
  - reflexivity.
  - reflexivity.
  - reflexivity.
  - reflexivity.
  - simpl. lia.
  - simpl. lia.
Defined.










Lemma count_occ_zero_prefix (l : list Z) :
  forall k,
    (forall i, (i < k)%nat -> (i < List.length l)%nat -> nth i l 0 = 0) ->
    (count_occ Z.eq_dec l 1%Z <= List.length l - k)%nat.
Proof.
  induction l as [|a l IH]; intros k H; [cbn; lia|].
  destruct k as [|k].
  - pose proof (count_occ_bound Z.eq_dec 1 (a :: l)). lia.
  - pose proof (H 0%nat ltac:(lia) ltac:(cbn; lia)) as Ha. cbn in Ha. subst a.
    cbn [count_occ List.length]. destruct (Z.eq_dec 0 1); [discriminate|].
    replace (S (List.length l) - S k)%nat with (List.length l - k)%nat by lia.
    apply IH. intros i Hi Hl. apply (H (S i)); cbn; lia.
Qed.

(** X15: the first row never signals, and neither do the rows before a
    full window: the number of rows whose signal is 1 is at most the
    number of rows less max(1, window - 1). *)
Theorem signal_count_bound (df : DataFrame) (window : Z) (signal : list Z) :
  generate_signals df (PInt window) = Ok signal -> 0 < window ->
  nth 0 signal 0 = 0 /\
  (count_occ Z.eq_dec signal 1%Z
   <= List.length signal - Nat.max 1 (Z.to_nat window - 1))%nat.
Proof.
  intros Hg Hw.
  destruct (generate_signals_ok _ _ _ Hg)
    as (col & close & z & _ & _ & Hz & _ & ->).
  inversion Hz; subst z. set (w := Z.to_nat window).
  assert (Hw1 : (1 <= w)%nat) by (subst w; lia).
  assert (Hpre : forall i, (i < Nat.max 1 (w - 1))%nat ->
                           (i < List.length (signal_of close w))%nat ->
                           nth i (signal_of close w) 0 = 0).
  { intros i Hi Hl. rewrite signal_of_length in Hl.
    destruct (Nat.eq_dec w 1) as [E|E].
    - rewrite E. now apply signal_of_one.
    - apply signal_of_undefined; [assumption|left; lia]. }
  split.
  - destruct (signal_of close w) as [|a l] eqn:E; [reflexivity|].
    apply (Hpre 0%nat); [lia | cbn [List.length]; lia].
  - now apply count_occ_zero_prefix.
Qed.

Lemma signal_count_bound_witness :
  nth 0 [0; 0; 1; 1; 0; 0] 0 = 0 /\
  (count_occ Z.eq_dec [0; 0; 1; 1; 0; 0]%Z 1%Z
   <= List.length [0; 0; 1; 1; 0; 0]%Z - Nat.max 1 (Z.to_nat 3 - 1))%nat.
Proof.
  apply (signal_count_bound scenario_frame 3 [0; 0; 1; 1; 0; 0]).
  - reflexivity.
  - lia.
Defined.




(** * Further properties of the configuration *)

Lemma has_key_other (r : string) (k v : yaml) (d1 d2 : list (yaml * yaml)) :
  key_is r k = false ->
  has_key r (d1 ++ (k, v) :: d2) = has_key r (d1 ++ d2).
Proof.
  intros H. unfold has_key. rewrite !existsb_app. cbn [existsb fst].
  now rewrite H.
Qed.

Lemma dict_get_other (r : string) (k v : yaml) (d1 d2 : list (yaml * yaml)) :
  key_is r k = false ->
  dict_get r (d1 ++ (k, v) :: d2) = dict_get r (d1 ++ d2).
Proof.
  intros H. unfold dict_get.
  induction d1 as [|kv d1 IH]; cbn [app find fst].
  - now rewrite H.
  - destruct (key_is r (fst kv)); [reflexivity|exact IH].
Qed.

(** X17: a key other than seed, window and version plays no part: a
    mapping with such an entry added anywhere validates to the same
    configuration, or fails with the same error, as the mapping without
    it. *)
Theorem load_config_ignores_other_keys (w w' : World) (path : string)
    (d1 d2 : list (yaml * yaml)) (k v : yaml) :
  yaml_at w path = Some (YamlDoc (YMap (d1 ++ d2))) ->
  yaml_at w' path = Some (YamlDoc (YMap (d1 ++ (k, v) :: d2))) ->
  (forall r, In r required_keys -> key_is r k = false) ->
  load_config w' path = load_config w path.
Proof.
  intros Hw Hw' Hk. unfold load_config. rewrite Hw, Hw'.
  assert (Hs : key_is "seed" k = false) by (apply Hk; cbn; auto).
  assert (Hn : key_is "window" k = false) by (apply Hk; cbn; auto).
  assert (Hv : key_is "version" k = false) by (apply Hk; cbn; auto).
  unfold missing_keys, required_keys, getitem. cbn [filter].
  rewrite !has_key_other, !dict_get_other by assumption.
  reflexivity.
Qed.

Lemma load_config_ignores_other_keys_witness :
  load_config
    (scenario_with_config
       (YMap [(YStr "seed", YInt 42); (YStr "comment", YStr "weekly run");
              (YStr "window", YInt 3); (YStr "version", YStr "v1")]))
    "config.yaml"
  = load_config (scenario_with_config scenario_config) "config.yaml".
Proof.
  apply (load_config_ignores_other_keys
           (scenario_with_config scenario_config)
           (scenario_with_config
              (YMap [(YStr "seed", YInt 42); (YStr "comment", YStr "weekly run");
                     (YStr "window", YInt 3); (YStr "version", YStr "v1")]))
           "config.yaml"
           [(YStr "seed", YInt 42)]
           [(YStr "window", YInt 3); (YStr "version", YStr "v1")]
           (YStr "comment") (YStr "weekly run")).
  - reflexivity.
  - reflexivity.
  - intros r Hr. cbn in Hr.
    destruct Hr as [<-|[<-|[<-|[]]]]; reflexivity.
Defined.

(** X18: a configuration that passes validation has a window whose
    integer value is positive, being a positive integer or the boolean
    true, and a version that is not the empty string; its seed is any
    integer or boolean. *)
Theorem validated_config_invariant (w : World) (path : string) (cfg : Config) :
  load_config w path = Ok cfg ->
  0 < int_val (cfg_window cfg) /\
  ((exists z, cfg_window cfg = PInt z /\ 0 < z) \/ cfg_window cfg = PBool true) /\
  cfg_version cfg <> "" /\
  exists d, yaml_at w path = Some (YamlDoc (YMap d)) /\
            dict_get "version" d = Some (YStr (cfg_version cfg)) /\
            (exists sv, dict_get "seed" d = Some sv /\
                        as_int sv = Some (cfg_seed cfg)) /\
            (exists wv, dict_get "window" d = Some wv /\
                        as_int wv = Some (cfg_window cfg)).
Proof.
  unfold load_config.
  destruct (yaml_at w path) as [[exc|doc]|]; try discriminate.
  destruct doc; try discriminate.
  destruct (missing_keys items); [|discriminate].
  unfold getitem.
  destruct (dict_get "seed" items) as [sv|] eqn:Es; [|discriminate].
  destruct (dict_get "window" items) as [wv|] eqn:Ew; [|discriminate].
  destruct (dict_get "version" items) as [vv|] eqn:Ev; [|discriminate].
  cbn [bind Monad_result result_bind].
  destruct (as_int sv) as [si|] eqn:Esi; [|discriminate].
  destruct (as_int wv) as [wi|] eqn:Ewi; [|discriminate].
  destruct (Z.leb_spec (int_val wi) 0) as [Hle|Hpos]; [discriminate|].
  destruct (as_str vv) as [vs|] eqn:Evs; [|discriminate].
  destruct (str_nonempty vs) eqn:Ene; cbn [negb]; [|discriminate].
  intros Hok; inversion Hok; subst cfg. cbn [cfg_seed cfg_window cfg_version].
  split; [assumption|]. split; [|split].
  - destruct wi as [z|[|]]; cbn [int_val] in Hpos.
    + left. now exists z.
    + now right.
    + lia.
  - intros E. subst vs. discriminate.
  - exists items. split; [reflexivity|]. split; [|split].
    + destruct vv; cbn in Evs; try discriminate.
      inversion Evs; subst. exact Ev.
    + now exists sv.
    + now exists wv.
Qed.

Lemma validated_config_invariant_witness :
  0 < int_val (cfg_window (mkConfig (PInt 42) (PInt 3) "v1")) /\
  ((exists z, cfg_window (mkConfig (PInt 42) (PInt 3) "v1") = PInt z /\ 0 < z) \/
   cfg_window (mkConfig (PInt 42) (PInt 3) "v1") = PBool true) /\
  cfg_version (mkConfig (PInt 42) (PInt 3) "v1") <> "" /\
  exists d, yaml_at scenario_world "config.yaml" = Some (YamlDoc (YMap d)) /\
            dict_get "version" d
            = Some (YStr (cfg_version (mkConfig (PInt 42) (PInt 3) "v1"))) /\
            (exists sv, dict_get "seed" d = Some sv /\
                        as_int sv
                        = Some (cfg_seed (mkConfig (PInt 42) (PInt 3) "v1"))) /\
            (exists wv, dict_get "window" d = Some wv /\
                        as_int wv
                        = Some (cfg_window (mkConfig (PInt 42) (PInt 3) "v1"))).
Proof.
  apply (validated_config_invariant scenario_world "config.yaml"
           (mkConfig (PInt 42) (PInt 3) "v1")).
  reflexivity.
Defined.

(** * The output file *)

(** X19: when every stage goes through but the metrics cannot be
    written, the run exits with 1 and reports the write error under the
    configuration's version; the log holds the lines up to the signals,
    then the error, and no metrics summary; when the error report can
    be written, it is what the output file holds. *)
Theorem metrics_write_failure_report (w : World) (cfg : Config)
    (df : DataFrame) (signal : list Z) (msg : string) :
  load_config w (arg_config (args w)) = Ok cfg ->
  np_random_seed (cfg_seed cfg) = Ok tt ->
  load_data w (arg_input (args w)) = Ok df ->
  generate_signals df (cfg_window cfg) = Ok signal ->
  write_metrics_fails w = Some msg ->
  fst (main w) = 1 /\
  stdout (snd (main w))
  = [PError (mkErrorPayload (cfg_version cfg) "error" msg)] /\
  log (snd (main w))
  = (config_log cfg ++
     [(INFO, DataLoaded (Z.of_nat (df_len df)));
      (INFO, RollingMeanCalculated (cfg_window cfg));
      (INFO, SignalsGenerated)] ++ handler_log w msg)%list /\
  (write_error_fails w = None ->
   out_file (snd (main w))
   = Some (PError (mkErrorPayload (cfg_version cfg) "error" msg))).
Proof.
  intros Hc Hs Hd Hg Hw.
  pose proof (main_try_write_raises w cfg df signal msg Hc Hs Hd Hg Hw) as Ht.
  destruct (main_of_raise w _ _ Ht eq_refl) as (H1 & H2 & H3 & H4).
  cbn [version_for_error log exn_msg] in *.
  split; [exact H1|]. split; [exact H2|]. split.
  - rewrite H3, <- app_assoc. reflexivity.
  - exact H4.
Qed.

Lemma metrics_write_failure_report_witness :
  fst (main scenario_read_only) = 1 /\
  stdout (snd (main scenario_read_only))
  = [PError (mkErrorPayload "v1" "error" "Permission denied")] /\
  log (snd (main scenario_read_only))
  = (config_log (mkConfig (PInt 42) (PInt 3) "v1") ++
     [(INFO, DataLoaded (Z.of_nat (df_len scenario_frame)));
      (INFO, RollingMeanCalculated (PInt 3));
      (INFO, SignalsGenerated)]
     ++ handler_log scenario_read_only "Permission denied")%list /\
  (write_error_fails scenario_read_only = None ->
   out_file (snd (main scenario_read_only))
   = Some (PError (mkErrorPayload "v1" "error" "Permission denied"))).
Proof.
  apply (metrics_write_failure_report scenario_read_only
           (mkConfig (PInt 42) (PInt 3) "v1") scenario_frame
           [0; 0; 1; 1; 0; 0] "Permission denied").
  - reflexivity.
  - reflexivity.
  - reflexivity.
  - reflexivity.
  - reflexivity.
Defined.
